(** * Worker inventory reporter of buildctl ([cmd/buildctl/debug/workers.go])

    A shallow embedding of [listWorkers], [printWorkersVerbose],
    [printWorkersTable], [sortedKeys] and [joinPlatforms], and the properties
    of the three output shapes (table, verbose dump, template expansion).

    Go strings are byte sequences: they are [string]s here, compared byte by
    byte.  Go maps are [gmap]s; the order in which a [range] visits a map is
    not fixed by the language and is an explicit parameter ([RangeOrder]).
    Every [fmt.Fprint*] call hands its whole text to the writer in one
    [Write]; a renderer is embedded as the sequence of calls it makes on the
    tab writer, in program order. *)

From stdpp Require Import base gmap strings list sorting pretty.
From Stdlib Require Import ZArith Ascii.
From Stdlib Require String.

Open Scope string_scope.
Open Scope list_scope.

(** ** Text *)

(** The escapes [\t] and [\n] of the Go string literals. *)
Definition TAB : string := String "009"%char "".
Definition NL : string := String "010"%char "".

(** [strings.Join(elems, sep)]: the elements with [sep] between neighbours;
    no element gives the empty string, one element gives itself. *)
Fixpoint strings_Join (elems : list string) (sep : string) : string :=
  match elems with
  | [] => ""
  | [e] => e
  | e :: rest => e +:+ sep +:+ strings_Join rest sep
  end.

(** The verb [%v] applied to a [bool]. *)
Definition fmt_bool (b : bool) : string := if b then "true" else "false".

(** The verb [%d] applied to a loop index. *)
Definition fmt_int (i : nat) : string := pretty i.

(** ** Data model *)

Definition error := string.

(** [ocispecs.Platform] of the image specification. *)
Module Platform.
Record t := mk {
  Architecture : string;
  OS : string;
  OSVersion : string;
  OSFeatures : list string;
  Variant : string
}.
End Platform.

(** Modelled from the spec: the type declarations of package [client]
    ([WorkerInfo], [BuildkitVersion], [CDIDevice], [PruneInfo]) are not part
    of the source file; the fields are the ones [workers.go] reads, typed as
    the data model of the specification gives them ([int64] and
    [time.Duration] as [Z]). *)
Module BuildkitVersion.
Record t := mk {
  Package : string;
  Version : string;
  Revision : string
}.
End BuildkitVersion.

Module CDIDevice.
Record t := mk {
  Name : string;
  AutoAllow : bool;
  OnDemand : bool;
  Annotations : gmap string string
}.
End CDIDevice.

Module PruneInfo.
Record t := mk {
  Filter : list string;
  All : bool;
  KeepDuration : Z;
  ReservedSpace : Z;
  MaxUsedSpace : Z;
  MinFreeSpace : Z
}.
End PruneInfo.

Module WorkerInfo.
Record t := mk {
  ID : string;
  Labels : gmap string string;
  Platforms : list Platform.t;
  GCPolicy : list PruneInfo.t;
  BuildkitVersion : BuildkitVersion.t;
  CDIDevices : list CDIDevice.t
}.
End WorkerInfo.

(** ** Packages the renderers call *)

(** The formatting functions of other packages: [platforms.Normalize] and
    [platforms.Format] of containerd, [time.Duration.String], and the verb
    [%g] applied to a [units.Bytes]. *)
Class Host := {
  platforms_Normalize : Platform.t → Platform.t;
  platforms_Format : Platform.t → string;
  Duration_String : Z → string;
  units_Bytes_g : Z → string
}.

(** The order in which [maps.Keys] yields the keys of a map: any
    enumeration of the keys, each once. *)
Record RangeOrder := {
  maps_Keys : gmap string string → list string;
  maps_Keys_perm : ∀ m, maps_Keys m ≡ₚ (map_to_list m).*1
}.

(** [slices.Sorted] on strings: the ascending rearrangement for [<] on Go
    strings, which is the byte-wise lexicographic order. *)
Definition slices_Sorted (keys : list string) : list string :=
  merge_sort String.le keys.

(** ** The tab writer, seen from the renderers *)

(** A renderer only calls [Write] (through [fmt.Fprintf], [fmt.Fprint] and
    [fmt.Fprintln]) and [Flush] on the [*tabwriter.Writer], and drops every
    result. *)
Inductive call :=
| Write (p : string)
| Flush.

Definition Fprintf (text : string) : list call := [Write text].
Definition Fprintln (text : string) : list call := [Write (text +:+ NL)].

(** The texts handed to [Write], in order. *)
Definition payloads (cs : list call) : list string :=
  omap (λ c, match c with Write p => Some p | Flush => None end) cs.

(** ** Renderers *)

Section Renderers.
Context `{Host}.
Variable ρ : RangeOrder.

Definition sortedKeys (m : gmap string string) : list string :=
  slices_Sorted (maps_Keys ρ m).

Definition joinPlatforms (p : list Platform.t) : string :=
  let str :=
    foldl (λ str pp, str ++ [platforms_Format (platforms_Normalize pp)]) [] p in
  strings_Join str ",".

Definition printWorkersTable (winfo : list WorkerInfo.t) : list call :=
  Fprintln ("ID" +:+ TAB +:+ "PLATFORMS") ++
  (winfo ≫= λ wi,
     let id := WorkerInfo.ID wi in
     Fprintf (id +:+ TAB +:+ joinPlatforms (WorkerInfo.Platforms wi) +:+ NL)) ++
  [Flush].

(** The body of [for _, k := range sortedKeys(wi.Labels)]. *)
Definition printLabel (labels : gmap string string) (k : string) : list call :=
  let v := default "" (labels !! k) in
  Fprintf (TAB +:+ k +:+ ":" +:+ TAB +:+ v +:+ NL).

(** The body of [for _, k := range sortedKeys(d.Annotations)]. *)
Definition printAnnotation (annotations : gmap string string) (k : string)
  : list call :=
  let v := default "" (annotations !! k) in
  Fprintf (TAB +:+ "Annotations:" +:+ TAB +:+ k +:+ ":" +:+ TAB +:+ v +:+ NL).

(** The body of [for _, d := range wi.CDIDevices]. *)
Definition printDevice (d : CDIDevice.t) : list call :=
  Fprintf (TAB +:+ "Name:" +:+ TAB +:+ CDIDevice.Name d +:+ NL) ++
  (if CDIDevice.OnDemand d
   then Fprintf (TAB +:+ "OnDemand:" +:+ TAB +:+
                 fmt_bool (CDIDevice.OnDemand d) +:+ NL)
   else Fprintf (TAB +:+ "AutoAllow:" +:+ TAB +:+
                 fmt_bool (CDIDevice.AutoAllow d) +:+ NL)) ++
  (sortedKeys (CDIDevice.Annotations d) ≫=
     printAnnotation (CDIDevice.Annotations d)).

(** The body of [for i, rule := range wi.GCPolicy]. *)
Definition printRule (i : nat) (rule : PruneInfo.t) : list call :=
  Fprintf ("GC Policy rule#" +:+ fmt_int i +:+ ":" +:+ NL) ++
  Fprintf (TAB +:+ "All:" +:+ TAB +:+ fmt_bool (PruneInfo.All rule) +:+ NL) ++
  (if bool_decide (0 < List.length (PruneInfo.Filter rule))
   then Fprintf (TAB +:+ "Filters:" +:+ TAB +:+
                 strings_Join (PruneInfo.Filter rule) " " +:+ NL)
   else []) ++
  (if bool_decide (0 < PruneInfo.KeepDuration rule)%Z
   then Fprintf (TAB +:+ "Keep duration:" +:+ TAB +:+
                 Duration_String (PruneInfo.KeepDuration rule) +:+ NL)
   else []) ++
  (if bool_decide (0 < PruneInfo.ReservedSpace rule)%Z
   then Fprintf (TAB +:+ "Reserved space:" +:+ TAB +:+
                 units_Bytes_g (PruneInfo.ReservedSpace rule) +:+ NL)
   else []) ++
  (if bool_decide (0 < PruneInfo.MinFreeSpace rule)%Z
   then Fprintf (TAB +:+ "Minimum free space:" +:+ TAB +:+
                 units_Bytes_g (PruneInfo.MinFreeSpace rule) +:+ NL)
   else []) ++
  (if bool_decide (0 < PruneInfo.MaxUsedSpace rule)%Z
   then Fprintf (TAB +:+ "Maximum used space:" +:+ TAB +:+
                 units_Bytes_g (PruneInfo.MaxUsedSpace rule) +:+ NL)
   else []).

(** The body of [for _, wi := range winfo]. *)
Definition printWorker (wi : WorkerInfo.t) : list call :=
  Fprintf ("ID:" +:+ TAB +:+ WorkerInfo.ID wi +:+ NL) ++
  Fprintf ("Platforms:" +:+ TAB +:+
           joinPlatforms (WorkerInfo.Platforms wi) +:+ NL) ++
  Fprintf ("BuildKit:" +:+ TAB +:+
           BuildkitVersion.Package (WorkerInfo.BuildkitVersion wi) +:+ " " +:+
           BuildkitVersion.Version (WorkerInfo.BuildkitVersion wi) +:+ " " +:+
           BuildkitVersion.Revision (WorkerInfo.BuildkitVersion wi) +:+ NL) ++
  Fprintf ("Labels:" +:+ NL) ++
  (sortedKeys (WorkerInfo.Labels wi) ≫= printLabel (WorkerInfo.Labels wi)) ++
  (if bool_decide (0 < List.length (WorkerInfo.CDIDevices wi))
   then Fprintf ("Devices:" +:+ NL) ++
        (WorkerInfo.CDIDevices wi ≫= printDevice) ++
        Fprintf NL
   else []) ++
  concat (imap printRule (WorkerInfo.GCPolicy wi)) ++
  Fprintf NL.

Definition printWorkersVerbose (winfo : list WorkerInfo.t) : list call :=
  (winfo ≫= printWorker) ++ [Flush].

End Renderers.

(** ** The command and its environment *)

(** A Go call that returns [(value, error)]. *)
Inductive result (A : Type) :=
| Ok (a : A)
| Err (e : error).
Arguments Ok {A} a.
Arguments Err {A} e.

(** [*cli.Context] of urfave/cli, as far as [listWorkers] reads it: the
    flags given on the command line.  A flag that was not given reads as the
    zero value of its type. *)
Record Context := {
  StringFlags : gmap string string;
  BoolFlags : gmap string bool;
  StringSliceFlags : gmap string (list string)
}.

Definition Context_String (c : Context) (name : string) : string :=
  default "" (StringFlags c !! name).
Definition Context_Bool (c : Context) (name : string) : bool :=
  default false (BoolFlags c !! name).
Definition Context_StringSlice (c : Context) (name : string) : list string :=
  default [] (StringSliceFlags c !! name).

(** What [listWorkers] runs on: an [io.Writer] ([Sink]) that may reject a
    write, [text/tabwriter] on top of one, the template engine behind
    [bccommon.ParseTemplate], and the client that fetches the workers. *)
Class Runtime := {
  Sink : Type;
  sink_Write : Sink → string → Sink * option error;
  TabWriter : Type;
  tabwriter_NewWriter : Sink → TabWriter;
  tabwriter_Write : TabWriter → string → TabWriter * option error;
  tabwriter_Flush : TabWriter → TabWriter * option error;
  tabwriter_output : TabWriter → Sink;
  Template : Type;
  ParseTemplate : string → result Template;
  Template_Execute : Template → Sink → list WorkerInfo.t → Sink * option error;
  Client : Type;
  ResolveClient : Context → result Client;
  ListWorkers : Client → list string → result (list WorkerInfo.t)
}.

Section Command.
Context `{Host} `{Runtime}.

(** The calls [listWorkers] makes, as they are recorded in [Calls]. *)
Inductive event :=
| CallDebug (msg : string)
| CallParseTemplate (format : string)
| CallExecute (tmpl : Template) (data : list WorkerInfo.t)
| CallFprintf (text : string)
| CallPrintWorkersVerbose (winfo : list WorkerInfo.t)
| CallPrintWorkersTable (winfo : list WorkerInfo.t).

(** [os.Stdout], [clicontext.App.Writer] and the record of calls.  The two
    writers are kept apart (urfave/cli lets the application replace its
    writer); one run of the command writes to one of them only. *)
Record World := {
  Stdout : Sink;
  AppWriter : Sink;
  Calls : list event
}.

(** A computation that changes the world and returns a value or an error. *)
Definition io (A : Type) : Type := World → World * result A.

Definition io_ret {A} (a : A) : io A := λ w, (w, Ok a).

(** [x, err := m; if err != nil { return err }; k]. *)
Definition io_bind {A B} (m : io A) (f : A → io B) : io B := λ w,
  match m w with
  | (w', Ok a) => f a w'
  | (w', Err e) => (w', Err e)
  end.

Notation "'do' x <- m ; k" := (io_bind m (λ x, k))
  (at level 10, x binder, m at level 99, k at level 200, only parsing).

Definition log_call (e : event) : io unit := λ w,
  ({| Stdout := Stdout w; AppWriter := AppWriter w; Calls := Calls w ++ [e] |},
   Ok tt).

(** A Go [error] result as the outcome of a step: [nil] lets the caller go
    on. *)
Definition of_error (r : option error) : result unit :=
  match r with
  | None => Ok tt
  | Some e => Err e
  end.

(** [bklog.L.Debug(msg)]. *)
Definition bklog_Debug (msg : string) : io unit := log_call (CallDebug msg).

(** [bccommon.ParseTemplate(format)]. *)
Definition parseTemplate (format : string) : io Template := λ w,
  ((log_call (CallParseTemplate format) w).1, ParseTemplate format).

(** [tmpl.Execute(clicontext.App.Writer, workers)]. *)
Definition execute (tmpl : Template) (workers : list WorkerInfo.t) : io unit :=
  λ w,
  let w := (log_call (CallExecute tmpl workers) w).1 in
  let '(s, r) := Template_Execute tmpl (AppWriter w) workers in
  ({| Stdout := Stdout w; AppWriter := s; Calls := Calls w |}, of_error r).

(** [fmt.Fprintf(clicontext.App.Writer, text)]. *)
Definition fprintf_AppWriter (text : string) : io unit := λ w,
  let w := (log_call (CallFprintf text) w).1 in
  let '(s, r) := sink_Write (AppWriter w) text in
  ({| Stdout := Stdout w; AppWriter := s; Calls := Calls w |}, of_error r).

(** One call on the tab writer; the result is dropped. *)
Definition run_call (tw : TabWriter) (c : call) : TabWriter :=
  match c with
  | Write p => (tabwriter_Write tw p).1
  | Flush => (tabwriter_Flush tw).1
  end.

Definition run_calls (tw : TabWriter) (cs : list call) : TabWriter :=
  foldl run_call tw cs.

(** [tw := tabwriter.NewWriter(os.Stdout, 1, 8, 1, '\t', 0)] followed by a
    renderer on [tw]. *)
Definition on_tabwriter (e : event) (cs : list call) : io unit := λ w,
  let w := (log_call e w).1 in
  let tw := tabwriter_NewWriter (Stdout w) in
  let tw := run_calls tw cs in
  ({| Stdout := tabwriter_output tw; AppWriter := AppWriter w;
      Calls := Calls w |}, Ok tt).

Variable ρ : RangeOrder.

(** [listWorkers] from the point where the workers have been fetched
    (line 51 on): the choice of the renderer and its run. *)
Definition listWorkers_report (clicontext : Context)
  (workers : list WorkerInfo.t) : io unit :=
  let format := Context_String clicontext "format" in
  if bool_decide (format ≠ "") then
    do _ <- (if Context_Bool clicontext "verbose"
             then bklog_Debug "Ignoring --verbose"
             else io_ret tt) ;
    do tmpl <- parseTemplate format ;
    do _ <- execute tmpl workers ;
    fprintf_AppWriter NL
  else
    if Context_Bool clicontext "verbose"
    then on_tabwriter (CallPrintWorkersVerbose workers)
                      (printWorkersVerbose ρ workers)
    else on_tabwriter (CallPrintWorkersTable workers)
                      (printWorkersTable workers).

(** [bccommon.ResolveClient] and [c.ListWorkers] with the filter of the
    command line. *)
Definition resolveClient (clicontext : Context) : io Client := λ w,
  (w, ResolveClient clicontext).
Definition listWorkers_fetch (c : Client) (filter : list string)
  : io (list WorkerInfo.t) := λ w,
  (w, ListWorkers c filter).

Definition listWorkers (clicontext : Context) : io unit :=
  do c <- resolveClient clicontext ;
  do workers <-
    listWorkers_fetch c (Context_StringSlice clicontext "filter") ;
  listWorkers_report clicontext workers.

End Command.

(** ** Reading the record of calls and the output *)

Section Observations.
Context `{Runtime}.

Inductive renderer :=
| TemplateRenderer
| VerboseRenderer
| TableRenderer.

(** The renderer an event starts, if it starts one: the template renderer
    starts with the parse of the template. *)
Definition renderer_of (e : event) : option renderer :=
  match e with
  | CallParseTemplate _ => Some TemplateRenderer
  | CallPrintWorkersVerbose _ => Some VerboseRenderer
  | CallPrintWorkersTable _ => Some TableRenderer
  | _ => None
  end.

Definition renderers_run (evs : list event) : list renderer :=
  omap renderer_of evs.

(** The template executions among the events, each with the value bound to
    the top level of the template. *)
Definition executions (evs : list event)
  : list (Template * list WorkerInfo.t) :=
  omap (λ e, match e with CallExecute t d => Some (t, d) | _ => None end) evs.

(** The texts written to [clicontext.App.Writer] by [listWorkers] itself. *)
Definition fprintfs (evs : list event) : list string :=
  omap (λ e, match e with CallFprintf text => Some text | _ => None end) evs.

(** The record of an ignored [--verbose]. *)
Definition ignoring (clicontext : Context) : list event :=
  if Context_Bool clicontext "verbose"
  then [CallDebug "Ignoring --verbose"] else [].

End Observations.

(** [blk] is a run of consecutive calls of [out]. *)
Definition emitted_in (blk out : list call) : Prop :=
  ∃ pre post, out = pre ++ blk ++ post.

(** [s] starts with the bytes of [start]. *)
Fixpoint starts_with (start s : string) : bool :=
  match start with
  | EmptyString => true
  | String a start' =>
    match s with
    | EmptyString => false
    | String b s' => Ascii.eqb a b && starts_with start' s'
    end
  end.

(** The lines of [cs] that start with [start]. *)
Definition lines_with (start : string) (cs : list call) : list string :=
  List.filter (starts_with start) (payloads cs).

(** Decides [starts_with] on texts whose first bytes are literal. *)
Ltac first_bytes :=
  repeat match goal with
  | |- context [starts_with ?a ?b] =>
      let v := eval lazy in (starts_with a b) in
      change (starts_with a b) with v
  end.

(** The number of bytes [c] in [s], and the whole text of a run of calls. *)
Fixpoint count_byte (c : ascii) (s : string) : nat :=
  match s with
  | EmptyString => 0
  | String a s' => (if Ascii.eqb a c then 1 else 0) + count_byte c s'
  end.

Definition text_of (cs : list call) : string :=
  foldr String.append "" (payloads cs).

(** The lines of a text: its pieces between newlines, a last piece with no
    newline after it included when it is not empty. *)
Fixpoint text_lines (s : string) : list string :=
  match s with
  | EmptyString => []
  | String a s' =>
    if Ascii.eqb a "010" then "" :: text_lines s'
    else match text_lines s' with
         | [] => [String a ""]
         | line :: rest => String a line :: rest
         end
  end.

(** The texts written by [cs], one per print call, that do not start with a
    tab: in the verbose dump the section headers and the blank lines. *)
Definition unindented (cs : list call) : list string :=
  List.filter (λ p, negb (starts_with TAB p)) (payloads cs).

(** The calls of [cs] are writes only. *)
Definition writes_only (cs : list call) : Prop :=
  cs = Write <$> payloads cs.

(** ** An environment to run the command in

    Stand-ins for the packages outside the file, small enough to evaluate:
    they fix one behaviour of each where the theorems below hold for all. *)

Module Demo.

(** Platforms print as their non-empty fields joined by [/], durations in
    nanoseconds and sizes in bytes. *)
Definition host : Host := {|
  platforms_Normalize p := p;
  platforms_Format p :=
    strings_Join
      (List.filter (λ s, negb (String.eqb s ""))
         [Platform.OS p; Platform.Architecture p; Platform.Variant p]) "/";
  Duration_String d := pretty d +:+ "ns";
  units_Bytes_g b := pretty b +:+ "B"
|}.

(** Two iteration orders: the one of [map_to_list], and its reverse. *)
Definition forward : RangeOrder := {|
  maps_Keys m := (map_to_list m).*1;
  maps_Keys_perm m := reflexivity _
|}.

Definition backward : RangeOrder := {|
  maps_Keys m := reverse (map_to_list m).*1;
  maps_Keys_perm m := reverse_Permutation _
|}.

(** A sink that keeps what it accepted and rejects every write once it is
    closed. *)
Record sink := {
  text : string;
  closed : bool
}.

Definition sink_write (s : sink) (p : string) : sink * option error :=
  if closed s then (s, Some "write: broken pipe")
  else ({| text := text s +:+ p; closed := false |}, None).

(** A buffering writer on top of a sink: [Write] keeps the text, [Flush]
    passes it on.  The padding of the cells is left out. *)
Record tabwriter := {
  pending : string;
  target : sink
}.

Definition tabwriter_new (s : sink) : tabwriter :=
  {| pending := ""; target := s |}.

Definition tabwriter_write (tw : tabwriter) (p : string)
  : tabwriter * option error :=
  ({| pending := pending tw +:+ p; target := target tw |}, None).

Definition tabwriter_flush (tw : tabwriter) : tabwriter * option error :=
  let '(s, r) := sink_write (target tw) (pending tw) in
  ({| pending := ""; target := s |}, r).

(** A template engine that knows two templates: the number of elements of
    the bound value, and a field the value does not have. *)
Inductive template :=
| TLen
| TField (name : string).

Definition parse (format : string) : result template :=
  if String.eqb format "{{len .}}" then Ok TLen
  else if String.eqb format "{{.Missing}}" then Ok (TField "Missing")
  else Err ("template: unexpected input in " +:+ format).

Definition exec (t : template) (s : sink) (data : list WorkerInfo.t)
  : sink * option error :=
  match t with
  | TLen => sink_write s (pretty (List.length data))
  | TField name => (s, Some ("can't evaluate field " +:+ name))
  end.

Definition w1 : WorkerInfo.t := {|
  WorkerInfo.ID := "w1";
  WorkerInfo.Labels := ∅;
  WorkerInfo.Platforms := [Platform.mk "amd64" "linux" "" [] ""];
  WorkerInfo.GCPolicy := [];
  WorkerInfo.BuildkitVersion := BuildkitVersion.mk "" "" "";
  WorkerInfo.CDIDevices := []
|}.

Definition gpu : CDIDevice.t := {|
  CDIDevice.Name := "vendor.com/gpu=0";
  CDIDevice.AutoAllow := true;
  CDIDevice.OnDemand := true;
  CDIDevice.Annotations := {[ "z" := "26"; "m" := "13" ]}
|}.

Definition tpu : CDIDevice.t := {|
  CDIDevice.Name := "vendor.com/tpu=0";
  CDIDevice.AutoAllow := true;
  CDIDevice.OnDemand := false;
  CDIDevice.Annotations := ∅
|}.

Definition unset_rule : PruneInfo.t := {|
  PruneInfo.Filter := [];
  PruneInfo.All := false;
  PruneInfo.KeepDuration := 0;
  PruneInfo.ReservedSpace := 0;
  PruneInfo.MaxUsedSpace := 0;
  PruneInfo.MinFreeSpace := 0
|}.

Definition full_rule : PruneInfo.t := {|
  PruneInfo.Filter := ["type==source.local"; "type==exec.cachemount"];
  PruneInfo.All := true;
  PruneInfo.KeepDuration := 172800000000000;
  PruneInfo.ReservedSpace := 512000000;
  PruneInfo.MaxUsedSpace := 2000000000;
  PruneInfo.MinFreeSpace := 1000000
|}.

Definition w2 : WorkerInfo.t := {|
  WorkerInfo.ID := "w2";
  WorkerInfo.Labels :=
    {[ "org.mobyproject.buildkit.worker.hostname" := "builder";
       "org.mobyproject.buildkit.worker.executor" := "oci";
       "a" := "1" ]};
  WorkerInfo.Platforms :=
    [Platform.mk "amd64" "linux" "" [] ""; Platform.mk "arm" "linux" "" [] "v7"];
  WorkerInfo.GCPolicy := [unset_rule; full_rule];
  WorkerInfo.BuildkitVersion :=
    BuildkitVersion.mk "github.com/moby/buildkit" "v0.20.0" "abcdef";
  WorkerInfo.CDIDevices := [gpu; tpu]
|}.

Definition runtime : Runtime := {|
  Sink := sink;
  sink_Write := sink_write;
  TabWriter := tabwriter;
  tabwriter_NewWriter := tabwriter_new;
  tabwriter_Write := tabwriter_write;
  tabwriter_Flush := tabwriter_flush;
  tabwriter_output := target;
  Template := template;
  ParseTemplate := parse;
  Template_Execute := exec;
  Client := unit;
  ResolveClient _ := Ok tt;
  ListWorkers _ _ := Ok [w1; w2]
|}.

(** The command line: [--format] if given, and [--verbose]. *)
Definition flags (format : option string) (verbose : bool) : Context := {|
  StringFlags := from_option (λ f, {[ "format" := f ]}) ∅ format;
  BoolFlags := {[ "verbose" := verbose ]};
  StringSliceFlags := ∅
|}.

Definition open_sink : sink := {| text := ""; closed := false |}.
Definition closed_sink : sink := {| text := ""; closed := true |}.

Definition world (out : sink) : @World runtime :=
  @Build_World runtime out out [].

(** The same environment with a client that cannot be resolved, and with
    one whose listing fails. *)
Definition offline : Runtime := {|
  Sink := sink;
  sink_Write := sink_write;
  TabWriter := tabwriter;
  tabwriter_NewWriter := tabwriter_new;
  tabwriter_Write := tabwriter_write;
  tabwriter_Flush := tabwriter_flush;
  tabwriter_output := target;
  Template := template;
  ParseTemplate := parse;
  Template_Execute := exec;
  Client := unit;
  ResolveClient _ := Err "dial: connection refused";
  ListWorkers _ _ := Ok [w1; w2]
|}.

Definition unlisted : Runtime := {|
  Sink := sink;
  sink_Write := sink_write;
  TabWriter := tabwriter;
  tabwriter_NewWriter := tabwriter_new;
  tabwriter_Write := tabwriter_write;
  tabwriter_Flush := tabwriter_flush;
  tabwriter_output := target;
  Template := template;
  ParseTemplate := parse;
  Template_Execute := exec;
  Client := unit;
  ResolveClient _ := Ok tt;
  ListWorkers _ _ := Err "rpc: deadline exceeded"
|}.

End Demo.

(** * Properties *)

(** ** Sorted keys *)

Section SortedKeys.
Variable ρ : RangeOrder.

Lemma sortedKeys_perm (m : gmap string string) :
  sortedKeys ρ m ≡ₚ (map_to_list m).*1.
Proof.
  unfold sortedKeys, slices_Sorted.
  rewrite merge_sort_Permutation. apply maps_Keys_perm.
Qed.

Lemma sortedKeys_NoDup (m : gmap string string) : NoDup (sortedKeys ρ m).
Proof. rewrite sortedKeys_perm. apply NoDup_fst_map_to_list. Qed.

Lemma elem_of_sortedKeys (m : gmap string string) (k : string) :
  k ∈ sortedKeys ρ m ↔ is_Some (m !! k).
Proof.
  rewrite sortedKeys_perm, list_elem_of_fmap. split.
  - intros [[k' v] [-> Hin]]. apply elem_of_map_to_list in Hin. by exists v.
  - intros [v Hv]. exists (k, v). split; [done|]. by apply elem_of_map_to_list.
Qed.

Lemma sortedKeys_ascending (m : gmap string string) :
  StronglySorted String.le (sortedKeys ρ m).
Proof. apply (StronglySorted_merge_sort String.le). Qed.

End SortedKeys.

(** A duplicate-free ascending list is strictly ascending. *)
Lemma StronglySorted_strict (l : list string) :
  StronglySorted String.le l → NoDup l → StronglySorted (strict String.le) l.
Proof.
  induction 1 as [|x l Hl IH Hx]; intros Hnd; [constructor|].
  apply NoDup_cons in Hnd as [Hnin Hnd].
  constructor; [by apply IH|].
  apply Forall_forall. intros y Hy. split.
  - rewrite Forall_forall in Hx. by apply Hx.
  - intros Hyx. rewrite Forall_forall in Hx.
    assert (x = y) as -> by (apply (anti_symm String.le); auto).
    done.
Qed.

Lemma sortedKeys_strict (ρ : RangeOrder) (m : gmap string string) :
  StronglySorted (strict String.le) (sortedKeys ρ m).
Proof.
  apply StronglySorted_strict;
    [apply sortedKeys_ascending | apply sortedKeys_NoDup].
Qed.

(** The sorted keys do not depend on the order in which the map was
    visited. *)
Lemma sortedKeys_order (ρ ρ' : RangeOrder) (m : gmap string string) :
  sortedKeys ρ m = sortedKeys ρ' m.
Proof.
  apply (StronglySorted_unique String.le); try apply sortedKeys_ascending.
  by rewrite !sortedKeys_perm.
Qed.

(** [slices_Sorted] stands for any sorting algorithm: the ascending
    rearrangement of a list of strings is unique. *)
Lemma slices_Sorted_unique (keys l : list string) :
  l ≡ₚ keys → StronglySorted String.le l → l = slices_Sorted keys.
Proof.
  intros Hperm Hsorted.
  apply (StronglySorted_unique String.le); [done| |].
  - apply (StronglySorted_merge_sort String.le).
  - unfold slices_Sorted. by rewrite merge_sort_Permutation.
Qed.

Lemma sortedKeys_empty (ρ : RangeOrder) : sortedKeys ρ ∅ = [].
Proof.
  apply Permutation_nil_r. rewrite sortedKeys_perm.
  by rewrite map_to_list_empty.
Qed.

(** ** Text *)

Lemma string_app_assoc (s1 s2 s3 : string) :
  (s1 +:+ s2) +:+ s3 = s1 +:+ s2 +:+ s3.
Proof.
  induction s1 as [|a s1 IH]; [done|].
  unfold String.append in *; fold String.append in *. by rewrite IH.
Qed.

Lemma count_byte_app (c : ascii) (s1 s2 : string) :
  count_byte c (s1 +:+ s2) = count_byte c s1 + count_byte c s2.
Proof.
  induction s1 as [|a s1 IH]; [done|].
  unfold String.append; fold String.append. cbn. rewrite IH. lia.
Qed.

(** ** Lists of calls *)

Lemma bind_Write {A} (f : A → string) (l : list A) :
  (l ≫= λ x, Fprintf (f x)) = (Write ∘ f) <$> l.
Proof. induction l as [|x l IH]; [done|]. cbn. by rewrite <-IH. Qed.

Lemma payloads_app (cs1 cs2 : list call) :
  payloads (cs1 ++ cs2) = payloads cs1 ++ payloads cs2.
Proof. apply omap_app. Qed.

Lemma payloads_Write (ps : list string) : payloads (Write <$> ps) = ps.
Proof.
  induction ps as [|p ps IH]; [done|].
  rewrite fmap_cons. unfold payloads in *. cbn. by rewrite IH.
Qed.

Lemma emitted_in_refl (cs : list call) : emitted_in cs cs.
Proof. exists [], []. by rewrite app_nil_r. Qed.

Lemma emitted_in_trans (a b c : list call) :
  emitted_in a b → emitted_in b c → emitted_in a c.
Proof.
  intros (p1 & q1 & ->) (p2 & q2 & ->).
  exists (p2 ++ p1), (q1 ++ q2). by rewrite <-!app_assoc.
Qed.

Lemma emitted_in_app_l (a b c : list call) :
  emitted_in a b → emitted_in a (b ++ c).
Proof.
  intros (p & q & ->). exists p, (q ++ c). by rewrite <-!app_assoc.
Qed.

Lemma emitted_in_app_r (a b c : list call) :
  emitted_in a c → emitted_in a (b ++ c).
Proof.
  intros (p & q & ->). exists (b ++ p), q. by rewrite <-!app_assoc.
Qed.

Lemma emitted_in_bind {A} (f : A → list call) (l : list A) (x : A) :
  x ∈ l → emitted_in (f x) (l ≫= f).
Proof.
  intros (l1 & l2 & ->)%list_elem_of_split.
  exists (l1 ≫= f), (l2 ≫= f). by rewrite bind_app, bind_cons.
Qed.

Lemma emitted_in_concat_imap {A} (f : nat → A → list call) (l : list A)
  (i : nat) (x : A) :
  l !! i = Some x → emitted_in (f i x) (concat (imap f l)).
Proof.
  revert f i. induction l as [|y l IH]; intros f i Hi; [done|].
  destruct i as [|i]; cbn in *.
  - injection Hi as ->. exists [], (concat (imap (f ∘ S) l)). done.
  - apply emitted_in_app_r. by apply (IH (f ∘ S)).
Qed.

(** ** Platforms *)

Section Platforms.
Context `{Host}.

Lemma foldl_snoc {A B} (f : A → B) (acc : list B) (l : list A) :
  foldl (λ str x, str ++ [f x]) acc l = acc ++ (f <$> l).
Proof.
  revert acc. induction l as [|x l IH]; intros acc; cbn.
  - by rewrite app_nil_r.
  - rewrite IH. by rewrite <-app_assoc.
Qed.

(** The loop of [joinPlatforms] collects the formatted platforms in their
    order. *)
Lemma joinPlatforms_Join (p : list Platform.t) :
  joinPlatforms p =
  strings_Join ((platforms_Format ∘ platforms_Normalize) <$> p) ",".
Proof. unfold joinPlatforms. by rewrite foldl_snoc. Qed.

End Platforms.

(** ** The table *)

Section Table.
Context `{Host}.

(** The row of a worker: its id, a tab, the comma-joined platforms. *)
Lemma printWorkersTable_rows (winfo : list WorkerInfo.t) :
  printWorkersTable winfo =
  Write ("ID" +:+ TAB +:+ "PLATFORMS" +:+ NL) ::
  ((λ wi, Write (WorkerInfo.ID wi +:+ TAB +:+
                 joinPlatforms (WorkerInfo.Platforms wi) +:+ NL)) <$> winfo) ++
  [Flush].
Proof.
  unfold printWorkersTable, Fprintln. cbn [app].
  by rewrite (bind_Write (λ wi, WorkerInfo.ID wi +:+ TAB +:+
                 joinPlatforms (WorkerInfo.Platforms wi) +:+ NL)).
Qed.

(** The writes of the table: the renderer writes exactly
    [1 + len(workers)] rows and then flushes: first the header row [ID], tab, [PLATFORMS], then one
    row per worker in the order of the input, made of the id, a tab and the
    comma-join of the formatted normalized platforms in their order; every
    row ends with a newline, and no platform gives the empty string. *)
Theorem table_rows (winfo : list WorkerInfo.t) :
  let platforms wi :=
    strings_Join
      ((platforms_Format ∘ platforms_Normalize) <$> WorkerInfo.Platforms wi)
      "," in
  let row wi := WorkerInfo.ID wi +:+ TAB +:+ platforms wi +:+ NL in
  printWorkersTable winfo =
    (Write <$> ("ID" +:+ TAB +:+ "PLATFORMS" +:+ NL) :: (row <$> winfo)) ++
    [Flush]
  ∧ List.length (payloads (printWorkersTable winfo)) = 1 + List.length winfo
  ∧ payloads (printWorkersTable winfo) !! 0 =
      Some ("ID" +:+ TAB +:+ "PLATFORMS" +:+ NL)
  ∧ (∀ i, payloads (printWorkersTable winfo) !! S i = row <$> winfo !! i)
  ∧ Forall (λ p, ∃ body, p = body +:+ NL) (payloads (printWorkersTable winfo))
  ∧ joinPlatforms [] = "".
Proof.
  intros platforms row.
  assert (printWorkersTable winfo =
    (Write <$> ("ID" +:+ TAB +:+ "PLATFORMS" +:+ NL) :: (row <$> winfo)) ++
    [Flush]) as Heq.
  { rewrite printWorkersTable_rows, fmap_cons, <-list_fmap_compose.
    cbn [app]. do 2 f_equal. apply list_fmap_ext. intros _ wi _. cbn.
    by rewrite joinPlatforms_Join. }
  assert (payloads (printWorkersTable winfo) =
          ("ID" +:+ TAB +:+ "PLATFORMS" +:+ NL) :: (row <$> winfo)) as Hp.
  { rewrite Heq, payloads_app, payloads_Write. apply app_nil_r. }
  split; [exact Heq|]. rewrite Hp.
  split; [cbn; by rewrite length_fmap|].
  split; [done|].
  split; [intros i; exact (list_lookup_fmap row winfo i)|].
  split; [|done].
  constructor; [by exists ("ID" +:+ TAB +:+ "PLATFORMS")|].
  apply Forall_fmap, Forall_forall. intros wi _. cbn.
  exists (WorkerInfo.ID wi +:+ TAB +:+ platforms wi). unfold row.
  by rewrite !string_app_assoc.
Qed.

End Table.

(** ** The verbose dump *)

Section Verbose.
Context `{Host}.

Lemma printDevice_order (ρ ρ' : RangeOrder) (d : CDIDevice.t) :
  printDevice ρ d = printDevice ρ' d.
Proof. unfold printDevice. by rewrite (sortedKeys_order ρ ρ'). Qed.

Lemma printWorker_order (ρ ρ' : RangeOrder) (wi : WorkerInfo.t) :
  printWorker ρ wi = printWorker ρ' wi.
Proof.
  unfold printWorker. rewrite (sortedKeys_order ρ ρ').
  by rewrite (list_bind_ext (printDevice ρ) (printDevice ρ') _ _
                (printDevice_order ρ ρ') eq_refl).
Qed.

Lemma printWorkersVerbose_order (ρ ρ' : RangeOrder) (winfo : list WorkerInfo.t) :
  printWorkersVerbose ρ winfo = printWorkersVerbose ρ' winfo.
Proof.
  unfold printWorkersVerbose.
  by rewrite (list_bind_ext (printWorker ρ) (printWorker ρ') _ _
                (printWorker_order ρ ρ') eq_refl).
Qed.

Lemma printWorker_emitted (ρ : RangeOrder) (winfo : list WorkerInfo.t)
  (wi : WorkerInfo.t) :
  wi ∈ winfo → emitted_in (printWorker ρ wi) (printWorkersVerbose ρ winfo).
Proof.
  intros Hin. unfold printWorkersVerbose.
  by apply emitted_in_app_l, emitted_in_bind.
Qed.

Lemma printDevice_emitted (ρ : RangeOrder) (wi : WorkerInfo.t)
  (d : CDIDevice.t) :
  d ∈ WorkerInfo.CDIDevices wi → emitted_in (printDevice ρ d) (printWorker ρ wi).
Proof.
  intros Hin. unfold printWorker.
  do 4 apply emitted_in_app_r. apply emitted_in_app_r, emitted_in_app_l.
  rewrite bool_decide_true
    by (destruct (WorkerInfo.CDIDevices wi); [by inversion Hin|cbn; lia]).
  apply emitted_in_app_r, emitted_in_app_l. by apply emitted_in_bind.
Qed.

Lemma printRule_emitted (ρ : RangeOrder) (wi : WorkerInfo.t) (i : nat)
  (rule : PruneInfo.t) :
  WorkerInfo.GCPolicy wi !! i = Some rule →
  emitted_in (printRule i rule) (printWorker ρ wi).
Proof.
  intros Hi. unfold printWorker.
  do 6 apply emitted_in_app_r. apply emitted_in_app_l.
  by apply emitted_in_concat_imap.
Qed.

(** What follows the label lines of a worker: the device section, the first
    rule of the collection policy, or the blank line that ends the block. *)
Lemma after_labels (ρ : RangeOrder) (wi : WorkerInfo.t) :
  ∃ c rest,
    (if bool_decide (0 < List.length (WorkerInfo.CDIDevices wi))
     then Fprintf ("Devices:" +:+ NL) ++
          (WorkerInfo.CDIDevices wi ≫= printDevice ρ) ++ Fprintf NL
     else []) ++
    concat (imap printRule (WorkerInfo.GCPolicy wi)) ++ Fprintf NL = c :: rest
    ∧ (c = Write ("Devices:" +:+ NL) ∨
       c = Write ("GC Policy rule#0:" +:+ NL) ∨
       c = Write NL).
Proof.
  case_bool_decide.
  - eexists _, _. split; [reflexivity|]. by left.
  - destruct (WorkerInfo.GCPolicy wi) as [|rule rules].
    + eexists _, _. split; [reflexivity|]. by right; right.
    + eexists _, _. split; [reflexivity|]. by right; left.
Qed.

(** C3: in the block of every worker of the verbose dump, the line
    [Labels:] is followed by one indented line per label, in strictly
    ascending byte order of the keys, whatever the order in which the map is
    visited; with no label the line [Labels:] is still written and the next
    line is not indented. *)
Theorem verbose_labels_sorted (ρ : RangeOrder) (winfo : list WorkerInfo.t)
  (wi : WorkerInfo.t) :
  wi ∈ winfo →
  ∃ keys rest,
    emitted_in (printWorker ρ wi) (printWorkersVerbose ρ winfo)
    ∧ printWorker ρ wi =
        [Write ("ID:" +:+ TAB +:+ WorkerInfo.ID wi +:+ NL);
         Write ("Platforms:" +:+ TAB +:+
                joinPlatforms (WorkerInfo.Platforms wi) +:+ NL);
         Write ("BuildKit:" +:+ TAB +:+
                BuildkitVersion.Package (WorkerInfo.BuildkitVersion wi) +:+
                " " +:+
                BuildkitVersion.Version (WorkerInfo.BuildkitVersion wi) +:+
                " " +:+
                BuildkitVersion.Revision (WorkerInfo.BuildkitVersion wi) +:+
                NL);
         Write ("Labels:" +:+ NL)] ++
        ((λ k, Write (TAB +:+ k +:+ ":" +:+ TAB +:+
                      default "" (WorkerInfo.Labels wi !! k) +:+ NL)) <$> keys)
        ++ rest
    ∧ StronglySorted (strict String.le) keys
    ∧ (∀ k, k ∈ keys ↔ is_Some (WorkerInfo.Labels wi !! k))
    ∧ (∀ ρ', printWorker ρ' wi = printWorker ρ wi)
    ∧ (WorkerInfo.Labels wi = ∅ → keys = [])
    ∧ (∃ c rest', rest = c :: rest' ∧
         (c = Write ("Devices:" +:+ NL) ∨
          c = Write ("GC Policy rule#0:" +:+ NL) ∨
          c = Write NL)).
Proof.
  intros Hin.
  destruct (after_labels ρ wi) as (c & rest' & Hrest & Hc).
  exists (sortedKeys ρ (WorkerInfo.Labels wi)), (c :: rest').
  split; [by apply printWorker_emitted|].
  split.
  { rewrite <-Hrest. unfold printWorker, Fprintf at 1 2 3 4. cbn [app].
    by do 4 f_equal. }
  split; [apply sortedKeys_strict|].
  split; [apply elem_of_sortedKeys|].
  split; [intros ρ'; apply printWorker_order|].
  split; [intros ->; apply sortedKeys_empty|].
  by exists c, rest'.
Qed.

End Verbose.

(** ** Lines by their first bytes *)

Lemma lines_with_app (start : string) (cs1 cs2 : list call) :
  lines_with start (cs1 ++ cs2) = lines_with start cs1 ++ lines_with start cs2.
Proof. unfold lines_with. by rewrite payloads_app, List.filter_app. Qed.

Lemma lines_with_Fprintf (start text : string) :
  lines_with start (Fprintf text) =
  if starts_with start text then [text] else [].
Proof. done. Qed.

Lemma lines_with_cond (start text : string) (b : bool) :
  lines_with start (if b then Fprintf text else []) =
  if b && starts_with start text then [text] else [].
Proof. by destruct b. Qed.

Lemma lines_with_none (start : string) (cs : list call) :
  Forall (λ p, starts_with start p = false) (payloads cs) →
  lines_with start cs = [].
Proof.
  unfold lines_with. induction 1 as [|p ps Hp _ IH]; [done|].
  cbn. by rewrite Hp.
Qed.

Section VerboseSections.
Context `{Host}.

Lemma printAnnotations_payloads (ρ : RangeOrder) (m : gmap string string) :
  payloads (sortedKeys ρ m ≫= printAnnotation m) =
  (λ k, TAB +:+ "Annotations:" +:+ TAB +:+ k +:+ ":" +:+ TAB +:+
        default "" (m !! k) +:+ NL) <$> sortedKeys ρ m.
Proof.
  unfold printAnnotation.
  rewrite (bind_Write (λ k, TAB +:+ "Annotations:" +:+ TAB +:+ k +:+ ":" +:+
                            TAB +:+ default "" (m !! k) +:+ NL)).
  by rewrite list_fmap_compose, payloads_Write.
Qed.

(** C4: the block of every device of the verbose dump is its [Name:] line,
    then one line that is [OnDemand: true] when [onDemand] is set and
    [AutoAllow: <bool>] when it is not, then [Annotations:] lines only: a
    device with [onDemand] has no [AutoAllow:] line, one without has no
    [OnDemand:] line, and each block has exactly one of the two. *)
Theorem device_mode_line (ρ : RangeOrder) (winfo : list WorkerInfo.t)
  (wi : WorkerInfo.t) (d : CDIDevice.t) :
  wi ∈ winfo → d ∈ WorkerInfo.CDIDevices wi →
  let on_demand := TAB +:+ "OnDemand:" +:+ TAB in
  let auto_allow := TAB +:+ "AutoAllow:" +:+ TAB in
  emitted_in (printDevice ρ d) (printWorkersVerbose ρ winfo)
  ∧ payloads (printDevice ρ d) =
      (TAB +:+ "Name:" +:+ TAB +:+ CDIDevice.Name d +:+ NL) ::
      (if CDIDevice.OnDemand d
       then on_demand +:+ "true" +:+ NL
       else auto_allow +:+ fmt_bool (CDIDevice.AutoAllow d) +:+ NL) ::
      ((λ k, TAB +:+ "Annotations:" +:+ TAB +:+ k +:+ ":" +:+ TAB +:+
             default "" (CDIDevice.Annotations d !! k) +:+ NL) <$>
         sortedKeys ρ (CDIDevice.Annotations d))
  ∧ lines_with on_demand (printDevice ρ d) =
      (if CDIDevice.OnDemand d then [on_demand +:+ "true" +:+ NL] else [])
  ∧ lines_with auto_allow (printDevice ρ d) =
      (if CDIDevice.OnDemand d then []
       else [auto_allow +:+ fmt_bool (CDIDevice.AutoAllow d) +:+ NL])
  ∧ List.length (lines_with on_demand (printDevice ρ d)) +
    List.length (lines_with auto_allow (printDevice ρ d)) = 1.
Proof.
  intros Hwi Hd on_demand auto_allow.
  assert (∀ start,
    starts_with start (TAB +:+ "Annotations:" +:+ TAB) = false →
    (∀ s, starts_with start (TAB +:+ "Annotations:" +:+ TAB +:+ s) = false) →
    lines_with start (sortedKeys ρ (CDIDevice.Annotations d) ≫=
                      printAnnotation (CDIDevice.Annotations d)) = [])
    as Hann.
  { intros start _ Hs. apply lines_with_none.
    rewrite printAnnotations_payloads. apply Forall_fmap, Forall_forall.
    intros k _. apply Hs. }
  assert (lines_with on_demand (printDevice ρ d) =
      (if CDIDevice.OnDemand d then [on_demand +:+ "true" +:+ NL] else []))
    as Hon.
  { unfold printDevice. rewrite !lines_with_app, Hann by done.
    destruct (CDIDevice.OnDemand d);
      rewrite !lines_with_Fprintf; subst on_demand; first_bytes; reflexivity. }
  assert (lines_with auto_allow (printDevice ρ d) =
      (if CDIDevice.OnDemand d then []
       else [auto_allow +:+ fmt_bool (CDIDevice.AutoAllow d) +:+ NL]))
    as Hauto.
  { unfold printDevice. rewrite !lines_with_app, Hann by done.
    destruct (CDIDevice.OnDemand d);
      rewrite !lines_with_Fprintf; subst auto_allow; first_bytes; reflexivity. }
  split.
  { eapply emitted_in_trans;
      [by apply printDevice_emitted | by apply printWorker_emitted]. }
  split.
  { unfold printDevice. rewrite !payloads_app, printAnnotations_payloads.
    by destruct (CDIDevice.OnDemand d). }
  split; [exact Hon|]. split; [exact Hauto|].
  rewrite Hon, Hauto. by destruct (CDIDevice.OnDemand d).
Qed.

End VerboseSections.

Section CollectionPolicy.
Context `{Host}.

(** Each optional line of a rule is written exactly when the guard of its
    [if] holds. *)
Lemma printRule_Filters (i : nat) (rule : PruneInfo.t) :
  lines_with (TAB +:+ "Filters:" +:+ TAB) (printRule i rule) =
  if bool_decide (0 < List.length (PruneInfo.Filter rule))
  then [TAB +:+ "Filters:" +:+ TAB +:+
        strings_Join (PruneInfo.Filter rule) " " +:+ NL]
  else [].
Proof.
  unfold printRule.
  rewrite !lines_with_app, !lines_with_cond, !lines_with_Fprintf.
  first_bytes. rewrite ?andb_true_r, ?andb_false_r. cbn [app].
  by rewrite ?app_nil_r.
Qed.

Lemma printRule_KeepDuration (i : nat) (rule : PruneInfo.t) :
  lines_with (TAB +:+ "Keep duration:" +:+ TAB) (printRule i rule) =
  if bool_decide (0 < PruneInfo.KeepDuration rule)%Z
  then [TAB +:+ "Keep duration:" +:+ TAB +:+
        Duration_String (PruneInfo.KeepDuration rule) +:+ NL]
  else [].
Proof.
  unfold printRule.
  rewrite !lines_with_app, !lines_with_cond, !lines_with_Fprintf.
  first_bytes. rewrite ?andb_true_r, ?andb_false_r. cbn [app].
  by rewrite ?app_nil_r.
Qed.

Lemma printRule_ReservedSpace (i : nat) (rule : PruneInfo.t) :
  lines_with (TAB +:+ "Reserved space:" +:+ TAB) (printRule i rule) =
  if bool_decide (0 < PruneInfo.ReservedSpace rule)%Z
  then [TAB +:+ "Reserved space:" +:+ TAB +:+
        units_Bytes_g (PruneInfo.ReservedSpace rule) +:+ NL]
  else [].
Proof.
  unfold printRule.
  rewrite !lines_with_app, !lines_with_cond, !lines_with_Fprintf.
  first_bytes. rewrite ?andb_true_r, ?andb_false_r. cbn [app].
  by rewrite ?app_nil_r.
Qed.

Lemma printRule_MinFreeSpace (i : nat) (rule : PruneInfo.t) :
  lines_with (TAB +:+ "Minimum free space:" +:+ TAB) (printRule i rule) =
  if bool_decide (0 < PruneInfo.MinFreeSpace rule)%Z
  then [TAB +:+ "Minimum free space:" +:+ TAB +:+
        units_Bytes_g (PruneInfo.MinFreeSpace rule) +:+ NL]
  else [].
Proof.
  unfold printRule.
  rewrite !lines_with_app, !lines_with_cond, !lines_with_Fprintf.
  first_bytes. rewrite ?andb_true_r, ?andb_false_r. cbn [app].
  by rewrite ?app_nil_r.
Qed.

Lemma printRule_MaxUsedSpace (i : nat) (rule : PruneInfo.t) :
  lines_with (TAB +:+ "Maximum used space:" +:+ TAB) (printRule i rule) =
  if bool_decide (0 < PruneInfo.MaxUsedSpace rule)%Z
  then [TAB +:+ "Maximum used space:" +:+ TAB +:+
        units_Bytes_g (PruneInfo.MaxUsedSpace rule) +:+ NL]
  else [].
Proof.
  unfold printRule.
  rewrite !lines_with_app, !lines_with_cond, !lines_with_Fprintf.
  first_bytes. rewrite ?andb_true_r, ?andb_false_r. cbn [app].
  by rewrite ?app_nil_r.
Qed.

(** C5: in the block of every rule of the verbose dump, a [Filters:] line
    is written only for a non-empty filter sequence, and a [Keep duration:],
    [Reserved space:], [Minimum free space:] or [Maximum used space:] line
    only for a field that is not zero; a rule with no filter and the four
    fields at zero is rendered as its header and its [All:] line alone. *)
Theorem gc_rule_optional_lines (ρ : RangeOrder) (winfo : list WorkerInfo.t)
  (wi : WorkerInfo.t) (i : nat) (rule : PruneInfo.t) :
  wi ∈ winfo → WorkerInfo.GCPolicy wi !! i = Some rule →
  emitted_in (printRule i rule) (printWorkersVerbose ρ winfo)
  ∧ (lines_with (TAB +:+ "Filters:" +:+ TAB) (printRule i rule) ≠ [] →
     PruneInfo.Filter rule ≠ [])
  ∧ (lines_with (TAB +:+ "Keep duration:" +:+ TAB) (printRule i rule) ≠ [] →
     PruneInfo.KeepDuration rule ≠ 0%Z)
  ∧ (lines_with (TAB +:+ "Reserved space:" +:+ TAB) (printRule i rule) ≠ [] →
     PruneInfo.ReservedSpace rule ≠ 0%Z)
  ∧ (lines_with (TAB +:+ "Minimum free space:" +:+ TAB) (printRule i rule) ≠ []
     → PruneInfo.MinFreeSpace rule ≠ 0%Z)
  ∧ (lines_with (TAB +:+ "Maximum used space:" +:+ TAB) (printRule i rule) ≠ []
     → PruneInfo.MaxUsedSpace rule ≠ 0%Z)
  ∧ (PruneInfo.Filter rule = [] →
     PruneInfo.KeepDuration rule = 0%Z →
     PruneInfo.ReservedSpace rule = 0%Z →
     PruneInfo.MinFreeSpace rule = 0%Z →
     PruneInfo.MaxUsedSpace rule = 0%Z →
     printRule i rule =
       [Write ("GC Policy rule#" +:+ fmt_int i +:+ ":" +:+ NL);
        Write (TAB +:+ "All:" +:+ TAB +:+ fmt_bool (PruneInfo.All rule) +:+ NL)]).
Proof.
  intros Hwi Hrule.
  split.
  { eapply emitted_in_trans;
      [by apply (printRule_emitted ρ) | by apply printWorker_emitted]. }
  rewrite printRule_Filters, printRule_KeepDuration, printRule_ReservedSpace,
    printRule_MinFreeSpace, printRule_MaxUsedSpace.
  repeat split.
  - case_bool_decide as Hg; [|done]. intros _ Heq. rewrite Heq in Hg.
    cbn in Hg. lia.
  - case_bool_decide; [lia|done].
  - case_bool_decide; [lia|done].
  - case_bool_decide; [lia|done].
  - case_bool_decide; [lia|done].
  - intros Hf Hk Hr Hm Hu. unfold printRule. rewrite Hf, Hk, Hr, Hm, Hu.
    reflexivity.
Qed.

End CollectionPolicy.

(** ** The command *)

Section Reporter.
Context `{Host} `{Runtime}.
Variable ρ : RangeOrder.

(** The run of [listWorkers_report] with a format. *)
Lemma report_template (clicontext : Context) (workers : list WorkerInfo.t)
  (w : World) :
  Context_String clicontext "format" ≠ "" →
  listWorkers_report ρ clicontext workers w =
  let format := Context_String clicontext "format" in
  match ParseTemplate format with
  | Err e =>
    ({| Stdout := Stdout w; AppWriter := AppWriter w;
        Calls := Calls w ++ ignoring clicontext ++
                 [CallParseTemplate format] |}, Err e)
  | Ok tmpl =>
    let x := Template_Execute tmpl (AppWriter w) workers in
    match x.2 with
    | Some e =>
      ({| Stdout := Stdout w; AppWriter := x.1;
          Calls := Calls w ++ ignoring clicontext ++
                   [CallParseTemplate format; CallExecute tmpl workers] |},
       Err e)
    | None =>
      let y := sink_Write x.1 NL in
      ({| Stdout := Stdout w; AppWriter := y.1;
          Calls := Calls w ++ ignoring clicontext ++
                   [CallParseTemplate format; CallExecute tmpl workers;
                    CallFprintf NL] |},
       of_error y.2)
    end
  end.
Proof.
  intros Hf. unfold listWorkers_report. rewrite bool_decide_true by done.
  unfold ignoring, io_bind, bklog_Debug, parseTemplate, execute,
    fprintf_AppWriter, log_call, io_ret.
  destruct (Context_Bool clicontext "verbose"); cbn;
    destruct (ParseTemplate _) as [tmpl|e]; cbn;
    rewrite <-?app_assoc, ?app_nil_r; cbn; try done;
    destruct (Template_Execute _ _ _) as [s [e|]]; cbn;
    rewrite <-?app_assoc; cbn; try done;
    destruct (sink_Write _ _) as [s' r]; cbn;
    by rewrite <-?app_assoc.
Qed.

(** The run of [listWorkers_report] without a format. *)
Lemma report_tabwriter (clicontext : Context) (workers : list WorkerInfo.t)
  (w : World) :
  Context_String clicontext "format" = "" →
  listWorkers_report ρ clicontext workers w =
  ({| Stdout :=
        tabwriter_output
          (run_calls (tabwriter_NewWriter (Stdout w))
             (if Context_Bool clicontext "verbose"
              then printWorkersVerbose ρ workers
              else printWorkersTable workers));
      AppWriter := AppWriter w;
      Calls := Calls w ++
               [if Context_Bool clicontext "verbose"
                then CallPrintWorkersVerbose workers
                else CallPrintWorkersTable workers] |}, Ok tt).
Proof.
  intros Hf. unfold listWorkers_report. rewrite bool_decide_false by tauto.
  by destruct (Context_Bool clicontext "verbose").
Qed.

End Reporter.

Section Claims.
Context `{Host} `{Runtime}.

(** C1: every call runs exactly one renderer: the template renderer when a
    format is given, whatever the verbose flag (which changes neither the
    output nor the result), else the verbose renderer when the verbose flag
    is set, else the table renderer. *)
Theorem one_renderer (ρ : RangeOrder) (clicontext : Context)
  (workers : list WorkerInfo.t) (w : World) :
  let format := Context_String clicontext "format" in
  let verbose := Context_Bool clicontext "verbose" in
  let out := listWorkers_report ρ clicontext workers w in
  (∃ evs, Calls out.1 = Calls w ++ evs ∧
     renderers_run evs =
       [if bool_decide (format ≠ "") then TemplateRenderer
        else if verbose then VerboseRenderer else TableRenderer])
  ∧ (format ≠ "" →
     Stdout out.1 = Stdout w ∧
     ∀ clicontext',
       Context_String clicontext' "format" = format →
       let out' := listWorkers_report ρ clicontext' workers w in
       AppWriter out'.1 = AppWriter out.1 ∧ Stdout out'.1 = Stdout out.1 ∧
       out'.2 = out.2)
  ∧ (format = "" → verbose = true →
     out = on_tabwriter (CallPrintWorkersVerbose workers)
             (printWorkersVerbose ρ workers) w)
  ∧ (format = "" → verbose = false →
     out = on_tabwriter (CallPrintWorkersTable workers)
             (printWorkersTable workers) w).
Proof.
  intros format verbose out. subst out format verbose.
  split; [|split; [|split]].
  - case_bool_decide as Hf.
    + rewrite report_template by done. cbn zeta.
      destruct (ParseTemplate _) as [tmpl|e];
        [destruct (Template_Execute _ _ _) as [s [e|]]|];
        cbn; eexists; (split; [reflexivity|]);
        unfold renderers_run, ignoring;
        by destruct (Context_Bool clicontext "verbose").
    + rewrite report_tabwriter by (by destruct (decide (Context_String clicontext "format" = ""))).
      cbn. eexists; split; [reflexivity|].
      by destruct (Context_Bool clicontext "verbose").
  - intros Hf. split.
    + rewrite report_template by done. cbn zeta.
      destruct (ParseTemplate _) as [tmpl|e];
        [destruct (Template_Execute _ _ _) as [s [e|]]|]; done.
    + intros clicontext' Hf'. cbn zeta.
      rewrite !report_template by congruence. rewrite Hf'. cbn zeta.
      destruct (ParseTemplate _) as [tmpl|e];
        [destruct (Template_Execute _ _ _) as [s [e|]]|]; done.
  - intros Hf Hv. unfold listWorkers_report.
    rewrite bool_decide_false by tauto. by rewrite Hv.
  - intros Hf Hv. unfold listWorkers_report.
    rewrite bool_decide_false by tauto. by rewrite Hv.
Qed.

(** C6: when the format parses and the template expands without error, the
    template is executed exactly once, on the whole list of workers, and the
    newline is written to the same sink once, after the expansion; nothing
    goes to the standard output. *)
Theorem template_executed_once (ρ : RangeOrder) (clicontext : Context)
  (workers : list WorkerInfo.t) (w : World) (tmpl : Template) (s : Sink) :
  Context_String clicontext "format" ≠ "" →
  ParseTemplate (Context_String clicontext "format") = Ok tmpl →
  Template_Execute tmpl (AppWriter w) workers = (s, None) →
  let out := listWorkers_report ρ clicontext workers w in
  (∃ evs, Calls out.1 = Calls w ++ evs ∧
     executions evs = [(tmpl, workers)] ∧
     fprintfs evs = [NL] ∧
     last evs = Some (CallFprintf NL))
  ∧ AppWriter out.1 = (sink_Write s NL).1
  ∧ out.2 = of_error (sink_Write s NL).2
  ∧ Stdout out.1 = Stdout w.
Proof.
  intros Hf Hp He out. subst out.
  rewrite report_template by done. cbn zeta. rewrite Hp, He. cbn.
  split; [|done].
  eexists; split; [reflexivity|].
  unfold ignoring. by destruct (Context_Bool clicontext "verbose").
Qed.

(** C7: with a format that does not parse, the error of the parse is
    returned, the template is not executed and no sink is written to; with a
    format that parses and a template whose execution fails, the error of
    the execution is returned and the newline is not written. *)
Theorem template_failures (ρ : RangeOrder) (clicontext : Context)
  (workers : list WorkerInfo.t) (w : World) :
  Context_String clicontext "format" ≠ "" →
  let format := Context_String clicontext "format" in
  let out := listWorkers_report ρ clicontext workers w in
  (∀ e, ParseTemplate format = Err e →
     out.2 = Err e ∧ AppWriter out.1 = AppWriter w ∧ Stdout out.1 = Stdout w ∧
     ∃ evs, Calls out.1 = Calls w ++ evs ∧
       executions evs = [] ∧ fprintfs evs = [])
  ∧ (∀ tmpl s e,
     ParseTemplate format = Ok tmpl →
     Template_Execute tmpl (AppWriter w) workers = (s, Some e) →
     out.2 = Err e ∧ AppWriter out.1 = s ∧ Stdout out.1 = Stdout w ∧
     ∃ evs, Calls out.1 = Calls w ++ evs ∧
       executions evs = [(tmpl, workers)] ∧ fprintfs evs = []).
Proof.
  intros Hf format out. subst out format.
  rewrite report_template by done. cbn zeta. split.
  - intros e ->. cbn. do 3 (split; [done|]).
    eexists; split; [reflexivity|].
    unfold ignoring. by destruct (Context_Bool clicontext "verbose").
  - intros tmpl s e -> ->. cbn. do 3 (split; [done|]).
    eexists; split; [reflexivity|].
    unfold ignoring. by destruct (Context_Bool clicontext "verbose").
Qed.

(** C8, as the code has it: with a format, an error of the execution of the
    template (a write the sink rejected included) and the error of the write
    of the newline are returned, and the sink stays as the failed call left
    it; without a format the renderers have no result, the results of their
    writes and of the flush are dropped, and the command returns no error. *)
Theorem write_failures (ρ : RangeOrder) (clicontext : Context)
  (workers : list WorkerInfo.t) (w : World) :
  let format := Context_String clicontext "format" in
  let out := listWorkers_report ρ clicontext workers w in
  (format ≠ "" → ∀ tmpl, ParseTemplate format = Ok tmpl →
     let x := Template_Execute tmpl (AppWriter w) workers in
     (∀ e, x.2 = Some e → out.2 = Err e ∧ AppWriter out.1 = x.1)
     ∧ (x.2 = None →
        let y := sink_Write x.1 NL in
        out.2 = of_error y.2 ∧ AppWriter out.1 = y.1))
  ∧ (format = "" →
     out.2 = Ok tt ∧
     Stdout out.1 =
       tabwriter_output
         (run_calls (tabwriter_NewWriter (Stdout w))
            (if Context_Bool clicontext "verbose"
             then printWorkersVerbose ρ workers
             else printWorkersTable workers))).
Proof.
  intros format out. subst out format. split.
  - intros Hf tmpl Hp. rewrite report_template by done. cbn zeta.
    rewrite Hp. split.
    + by intros e ->.
    + by intros ->.
  - intros Hf. by rewrite report_tabwriter.
Qed.

(** C9: the calls a renderer makes, and with them the text it writes, are a
    function of the list of workers: they do not depend on the order in
    which the maps are visited, nor on the world the command starts in, so
    the same input renders to the same bytes every time. *)
Theorem rendering_deterministic (ρ ρ' : RangeOrder) (clicontext : Context)
  (workers : list WorkerInfo.t) (w : World) :
  printWorkersVerbose ρ workers = printWorkersVerbose ρ' workers
  ∧ text_of (printWorkersVerbose ρ workers) =
    text_of (printWorkersVerbose ρ' workers)
  ∧ listWorkers_report ρ clicontext workers w =
    listWorkers_report ρ' clicontext workers w
  ∧ (Context_String clicontext "format" = "" →
     ∃ cs, cs = (if Context_Bool clicontext "verbose"
                 then printWorkersVerbose ρ workers
                 else printWorkersTable workers) ∧
       ∀ ρ'' w',
         Stdout (listWorkers_report ρ'' clicontext workers w').1 =
         tabwriter_output (run_calls (tabwriter_NewWriter (Stdout w')) cs)).
Proof.
  pose proof (printWorkersVerbose_order ρ ρ' workers) as Hv.
  split; [exact Hv|]. split; [by rewrite Hv|]. split.
  - unfold listWorkers_report. by rewrite Hv.
  - intros Hf. eexists; split; [reflexivity|]. intros ρ'' w'.
    rewrite report_tabwriter by done. cbn.
    by rewrite (printWorkersVerbose_order ρ'' ρ).
Qed.

(** C10: a format given as the empty string is the same as no format: the
    command does what it does without the flag, runs the verbose or the
    table renderer by the verbose flag, parses and executes no template and
    returns no error. *)
Theorem empty_format_is_absent (ρ : RangeOrder) (clicontext : Context)
  (workers : list WorkerInfo.t) (w : World) :
  StringFlags clicontext !! "format" = Some "" →
  let absent :=
    {| StringFlags := delete "format" (StringFlags clicontext);
       BoolFlags := BoolFlags clicontext;
       StringSliceFlags := StringSliceFlags clicontext |} in
  let out := listWorkers_report ρ clicontext workers w in
  out = listWorkers_report ρ absent workers w
  ∧ out = (if Context_Bool clicontext "verbose"
           then on_tabwriter (CallPrintWorkersVerbose workers)
                  (printWorkersVerbose ρ workers)
           else on_tabwriter (CallPrintWorkersTable workers)
                  (printWorkersTable workers)) w
  ∧ out.2 = Ok tt
  ∧ AppWriter out.1 = AppWriter w
  ∧ ∃ evs, Calls out.1 = Calls w ++ evs ∧
      renderers_run evs =
        [if Context_Bool clicontext "verbose"
         then VerboseRenderer else TableRenderer] ∧
      executions evs = [].
Proof.
  intros Hflag absent out. subst out.
  assert (Context_String clicontext "format" = "") as Hf
    by (unfold Context_String; by rewrite Hflag).
  assert (Context_String absent "format" = "") as Hf'
    by (unfold Context_String, absent; cbn; by rewrite lookup_delete_eq).
  split; [by rewrite !report_tabwriter|].
  split.
  { unfold listWorkers_report. by rewrite bool_decide_false by tauto. }
  rewrite report_tabwriter by done. cbn.
  do 2 (split; [done|]).
  eexists; split; [reflexivity|].
  by destruct (Context_Bool clicontext "verbose").
Qed.

End Claims.

(** ** The theorems at work *)

(** The three labels of [w2], visited backwards, come out ascending. *)
Lemma verbose_labels_sorted_witness :
  Demo.w2 ∈ [Demo.w1; Demo.w2] ∧
  ∃ keys,
    StronglySorted (strict String.le) keys ∧
    (∀ k, k ∈ keys ↔ is_Some (WorkerInfo.Labels Demo.w2 !! k)) ∧
    ∀ ρ', @printWorker Demo.host ρ' Demo.w2 =
          @printWorker Demo.host Demo.backward Demo.w2.
Proof.
  assert (Demo.w2 ∈ [Demo.w1; Demo.w2]) as Hin by (right; left).
  split; [exact Hin|].
  destruct (@verbose_labels_sorted Demo.host Demo.backward
              [Demo.w1; Demo.w2] Demo.w2 Hin)
    as (keys & rest & _ & _ & Hsorted & Hkeys & Horder & _).
  exists keys. auto.
Defined.

(** [gpu] is on demand and auto-allowed: only [OnDemand:] is written. *)
Lemma device_mode_line_witness :
  Demo.w2 ∈ [Demo.w1; Demo.w2] ∧
  Demo.gpu ∈ WorkerInfo.CDIDevices Demo.w2 ∧
  lines_with (TAB +:+ "AutoAllow:" +:+ TAB)
    (@printDevice Demo.forward Demo.gpu) = [] ∧
  lines_with (TAB +:+ "OnDemand:" +:+ TAB)
    (@printDevice Demo.forward Demo.gpu) =
    [TAB +:+ "OnDemand:" +:+ TAB +:+ "true" +:+ NL].
Proof.
  assert (Demo.w2 ∈ [Demo.w1; Demo.w2]) as Hin by (right; left).
  assert (Demo.gpu ∈ WorkerInfo.CDIDevices Demo.w2) as Hd by left.
  split; [exact Hin|]. split; [exact Hd|].
  destruct (@device_mode_line Demo.host Demo.forward
              [Demo.w1; Demo.w2] Demo.w2 Demo.gpu Hin Hd)
    as (_ & _ & Hon & Hauto & _).
  split; [exact Hauto | exact Hon].
Defined.

(** The first rule of [w2] sets nothing: header and [All:] line. *)
Lemma gc_rule_optional_lines_witness :
  Demo.w2 ∈ [Demo.w1; Demo.w2] ∧
  WorkerInfo.GCPolicy Demo.w2 !! 0 = Some Demo.unset_rule ∧
  @printRule Demo.host 0 Demo.unset_rule =
    [Write ("GC Policy rule#0:" +:+ NL);
     Write (TAB +:+ "All:" +:+ TAB +:+ "false" +:+ NL)].
Proof.
  assert (Demo.w2 ∈ [Demo.w1; Demo.w2]) as Hin by (right; left).
  split; [exact Hin|]. split; [reflexivity|].
  destruct (@gc_rule_optional_lines Demo.host Demo.forward
              [Demo.w1; Demo.w2] Demo.w2 0 Demo.unset_rule Hin eq_refl)
    as (_ & _ & _ & _ & _ & _ & Hunset).
  exact (Hunset eq_refl eq_refl eq_refl eq_refl eq_refl).
Defined.

(** [{{len .}}] on three workers, with [--verbose]: [3] and a newline. *)
Lemma template_executed_once_witness :
  let clicontext := Demo.flags (Some "{{len .}}") true in
  let workers := [Demo.w1; Demo.w2; Demo.w1] in
  let w := Demo.world Demo.open_sink in
  let out :=
    @listWorkers_report Demo.host Demo.runtime Demo.forward clicontext
      workers w in
  Context_String clicontext "format" ≠ "" ∧
  Demo.parse (Context_String clicontext "format") = Ok Demo.TLen ∧
  Demo.text (AppWriter out.1) = "3" +:+ NL ∧
  out.2 = Ok tt ∧
  Stdout out.1 = Demo.open_sink.
Proof.
  intros clicontext workers w out.
  assert (Context_String clicontext "format" ≠ "") as Hf by done.
  split; [exact Hf|]. split; [reflexivity|].
  destruct (@template_executed_once Demo.host Demo.runtime Demo.forward
              clicontext workers w Demo.TLen
              {| Demo.text := "3"; Demo.closed := false |}
              Hf eq_refl eq_refl)
    as (_ & Hw & Hr & Hs).
  fold out in Hw, Hr, Hs. rewrite Hw, Hr, Hs. by vm_compute.
Defined.

(** A format that does not parse, and one that fails in execution. *)
Lemma template_failures_witness :
  let w := Demo.world Demo.open_sink in
  let unparsed :=
    @listWorkers_report Demo.host Demo.runtime Demo.forward
      (Demo.flags (Some "{{") false) [Demo.w1] w in
  let failed :=
    @listWorkers_report Demo.host Demo.runtime Demo.forward
      (Demo.flags (Some "{{.Missing}}") false) [Demo.w1] w in
  Context_String (Demo.flags (Some "{{") false) "format" ≠ "" ∧
  unparsed.2 = Err "template: unexpected input in {{" ∧
  AppWriter unparsed.1 = Demo.open_sink ∧
  failed.2 = Err "can't evaluate field Missing" ∧
  AppWriter failed.1 = Demo.open_sink.
Proof.
  intros w unparsed failed.
  assert (Context_String (Demo.flags (Some "{{") false) "format" ≠ "")
    as Hf by done.
  assert (Context_String (Demo.flags (Some "{{.Missing}}") false) "format"
          ≠ "") as Hf' by done.
  split; [exact Hf|].
  destruct (@template_failures Demo.host Demo.runtime Demo.forward
              (Demo.flags (Some "{{") false) [Demo.w1] w Hf)
    as [Hparse _].
  destruct (Hparse "template: unexpected input in {{" eq_refl)
    as (Hr & Hw & _).
  destruct (@template_failures Demo.host Demo.runtime Demo.forward
              (Demo.flags (Some "{{.Missing}}") false) [Demo.w1] w Hf')
    as [_ Hexec].
  destruct (Hexec (Demo.TField "Missing") Demo.open_sink
              "can't evaluate field Missing" eq_refl eq_refl)
    as (Hr' & Hw' & _).
  auto.
Defined.

(** [--format ""] with [--verbose] is [--verbose] alone. *)
Lemma empty_format_is_absent_witness :
  let given := Demo.flags (Some "") true in
  let w := Demo.world Demo.open_sink in
  StringFlags given !! "format" = Some "" ∧
  @listWorkers_report Demo.host Demo.runtime Demo.forward given [Demo.w1] w =
  @listWorkers_report Demo.host Demo.runtime Demo.forward
    (Demo.flags None true) [Demo.w1] w ∧
  (@listWorkers_report Demo.host Demo.runtime Demo.forward given [Demo.w1] w).2
  = Ok tt.
Proof.
  intros given w.
  assert (StringFlags given !! "format" = Some "") as Hflag by done.
  split; [exact Hflag|].
  destruct (@empty_format_is_absent Demo.host Demo.runtime Demo.forward
              given [Demo.w1] w Hflag)
    as (Habsent & _ & Hr & _).
  split; [|exact Hr].
  rewrite Habsent. by vm_compute.
Defined.

(** On a closed sink the template path returns the error of the write, and
    the table path returns none. *)
Lemma write_failures_witness :
  let w := Demo.world Demo.closed_sink in
  (@listWorkers_report Demo.host Demo.runtime Demo.forward
     (Demo.flags (Some "{{len .}}") false) [Demo.w1] w).2 =
  Err "write: broken pipe" ∧
  (@listWorkers_report Demo.host Demo.runtime Demo.forward
     (Demo.flags None false) [Demo.w1] w).2 = Ok tt.
Proof.
  intros w.
  destruct (@write_failures Demo.host Demo.runtime Demo.forward
              (Demo.flags (Some "{{len .}}") false) [Demo.w1] w)
    as [Htemplate _].
  destruct (Htemplate ltac:(done) Demo.TLen eq_refl) as [Hexec _].
  destruct (@write_failures Demo.host Demo.runtime Demo.forward
              (Demo.flags None false) [Demo.w1] w)
    as [_ Htable].
  split.
  - exact (proj1 (Hexec "write: broken pipe" eq_refl)).
  - exact (proj1 (Htable eq_refl)).
Defined.

(** The sink is closed: the flush of the table and of the dump fails on it,
    and the command returns no error. *)
Lemma write_failure_dropped :
  let w := Demo.world Demo.closed_sink in
  let run cs :=
    @run_calls Demo.runtime (Demo.tabwriter_new Demo.closed_sink) cs in
  let report verbose :=
    @listWorkers_report Demo.host Demo.runtime Demo.forward
      (Demo.flags None verbose) [Demo.w1] w in
  (∃ rows, @printWorkersTable Demo.host [Demo.w1] = rows ++ [Flush] ∧
     (Demo.tabwriter_flush (run rows)).2 = Some "write: broken pipe") ∧
  (report false).2 = Ok tt ∧
  (∃ rows, @printWorkersVerbose Demo.host Demo.forward [Demo.w1] =
           rows ++ [Flush] ∧
     (Demo.tabwriter_flush (run rows)).2 = Some "write: broken pipe") ∧
  (report true).2 = Ok tt.
Proof.
  intros w run report. split; [|split; [|split]].
  - exists [Write ("ID" +:+ TAB +:+ "PLATFORMS" +:+ NL);
            Write ("w1" +:+ TAB +:+ "linux/amd64" +:+ NL)].
    split; by vm_compute.
  - by vm_compute.
  - exists [Write ("ID:" +:+ TAB +:+ "w1" +:+ NL);
            Write ("Platforms:" +:+ TAB +:+ "linux/amd64" +:+ NL);
            Write ("BuildKit:" +:+ TAB +:+ "  " +:+ NL);
            Write ("Labels:" +:+ NL);
            Write NL].
    split; by vm_compute.
  - by vm_compute.
Qed.

(** ** The bytes of the table *)

Lemma count_byte_Join (c : ascii) (elems : list string) (sep : string) :
  count_byte c sep = 0 → Forall (λ e, count_byte c e = 0) elems →
  count_byte c (strings_Join elems sep) = 0.
Proof.
  intros Hsep. induction 1 as [|e elems He _ IH]; [done|].
  destruct elems as [|e' elems]; [done|].
  change (strings_Join (e :: e' :: elems) sep)
    with (e +:+ sep +:+ strings_Join (e' :: elems) sep).
  rewrite !count_byte_app, He, Hsep, IH. done.
Qed.

(** ** The command with its fetch *)

Section Fetch.
Context `{Host} `{Runtime}.

(** An error of the client is returned before anything is rendered; with
    the workers fetched, the command is its report. *)
Lemma listWorkers_fetched (ρ : RangeOrder) (clicontext : Context) (w : World) :
  listWorkers ρ clicontext w =
  match ResolveClient clicontext with
  | Err e => (w, Err e)
  | Ok c =>
    match ListWorkers c (Context_StringSlice clicontext "filter") with
    | Err e => (w, Err e)
    | Ok workers => listWorkers_report ρ clicontext workers w
    end
  end.
Proof.
  unfold listWorkers, io_bind, resolveClient, listWorkers_fetch.
  destruct (ResolveClient clicontext) as [c|e]; [|done].
  by destruct (ListWorkers c _).
Qed.

End Fetch.

(** ** The scenario of the specification *)

Example table_scenario :
  text_of (@printWorkersTable Demo.host [Demo.w1]) =
  "ID" +:+ TAB +:+ "PLATFORMS" +:+ NL +:+
  "w1" +:+ TAB +:+ "linux/amd64" +:+ NL.
Proof. by vm_compute. Qed.

Example verbose_scenario :
  payloads (@printWorkersVerbose Demo.host Demo.backward [Demo.w1]) =
  ["ID:" +:+ TAB +:+ "w1" +:+ NL;
   "Platforms:" +:+ TAB +:+ "linux/amd64" +:+ NL;
   "BuildKit:" +:+ TAB +:+ "  " +:+ NL;
   "Labels:" +:+ NL;
   NL].
Proof. by vm_compute. Qed.

Example command_scenario :
  (@listWorkers Demo.host Demo.runtime Demo.forward
     (Demo.flags None false) (Demo.world Demo.open_sink)).1 =
  @Build_World Demo.runtime
    {| Demo.text :=
         "ID" +:+ TAB +:+ "PLATFORMS" +:+ NL +:+
         "w1" +:+ TAB +:+ "linux/amd64" +:+ NL +:+
         "w2" +:+ TAB +:+ "linux/amd64,linux/arm/v7" +:+ NL;
       Demo.closed := false |}
    Demo.open_sink
    [CallPrintWorkersTable [Demo.w1; Demo.w2]].
Proof. by vm_compute. Qed.

(** ** From the calls to the sink *)

Lemma string_app_nil_r (s : string) : s +:+ "" = s.
Proof.
  induction s as [|a s IH]; [done|].
  unfold String.append; fold String.append. by rewrite IH.
Qed.

Lemma demo_writes (ps : list string) (tw : Demo.tabwriter) :
  @run_calls Demo.runtime tw (Write <$> ps) =
  {| Demo.pending := Demo.pending tw +:+ foldr String.append "" ps;
     Demo.target := Demo.target tw |}.
Proof.
  revert tw. induction ps as [|p ps IH]; intros [pending target].
  - cbn. by rewrite string_app_nil_r.
  - rewrite fmap_cons. unfold run_calls in *. cbn [foldl foldr]. rewrite IH.
    cbn. by rewrite string_app_assoc.
Qed.

(** On the buffering writer over an open sink, a run of writes closed by a
    flush appends the text of the writes to the sink. *)
Lemma demo_rendered (ps : list string) (s : Demo.sink) :
  Demo.closed s = false →
  Demo.target
    (@run_calls Demo.runtime (Demo.tabwriter_new s) ((Write <$> ps) ++ [Flush]))
  = {| Demo.text := Demo.text s +:+ text_of (Write <$> ps);
       Demo.closed := false |}.
Proof.
  intros Hopen. unfold run_calls. rewrite foldl_app.
  fold (@run_calls Demo.runtime (Demo.tabwriter_new s) (Write <$> ps)).
  rewrite demo_writes. cbn. unfold Demo.tabwriter_flush, Demo.sink_write. cbn.
  rewrite Hopen. cbn. unfold text_of. by rewrite payloads_Write.
Qed.

(** * Further properties *)

(** ** Errors of the command *)

Section Errors.
Context `{Host} `{Runtime}.

(** X1: when the client cannot be resolved, or when the listing of the
    workers fails, [listWorkers] returns that error and does nothing else:
    no renderer is chosen, no call is recorded, no sink is written to. *)
Theorem listWorkers_fetch_errors (ρ : RangeOrder) (clicontext : Context)
  (w : World) :
  (∀ e, ResolveClient clicontext = Err e →
     listWorkers ρ clicontext w = (w, Err e))
  ∧ (∀ c e, ResolveClient clicontext = Ok c →
     ListWorkers c (Context_StringSlice clicontext "filter") = Err e →
     listWorkers ρ clicontext w = (w, Err e)).
Proof.
  rewrite listWorkers_fetched. split.
  - by intros e ->.
  - by intros c e -> ->.
Qed.

(** X2: every error [listWorkers] returns comes from the resolution of the
    client, from the listing of the workers, or, with a non-empty format,
    from the parse of the template, its execution or the write of the
    newline; without a format a fetched list of workers never gives an
    error. *)
Theorem listWorkers_error_sources (ρ : RangeOrder) (clicontext : Context)
  (w w' : World) (e : error) :
  listWorkers ρ clicontext w = (w', Err e) →
  let filter := Context_StringSlice clicontext "filter" in
  let format := Context_String clicontext "format" in
  (ResolveClient clicontext = Err e ∧ w' = w)
  ∨ (∃ c, ResolveClient clicontext = Ok c ∧
          ListWorkers c filter = Err e ∧ w' = w)
  ∨ (∃ c workers,
       ResolveClient clicontext = Ok c ∧
       ListWorkers c filter = Ok workers ∧
       format ≠ "" ∧
       (ParseTemplate format = Err e
        ∨ ∃ tmpl, ParseTemplate format = Ok tmpl ∧
            let x := Template_Execute tmpl (AppWriter w) workers in
            (x.2 = Some e ∨
             (x.2 = None ∧ (sink_Write x.1 NL).2 = Some e)))).
Proof.
  rewrite listWorkers_fetched. intros Hrun filter format.
  destruct (ResolveClient clicontext) as [c|e0] eqn:Hc.
  2: { left. by injection Hrun as <- <-. }
  right. subst filter.
  destruct (ListWorkers c _) as [workers|e0] eqn:Hl.
  2: { left. exists c. by injection Hrun as <- <-. }
  right. exists c, workers. do 2 (split; [done|]).
  destruct (decide (format = "")) as [Hf|Hf].
  { rewrite report_tabwriter in Hrun by done. discriminate Hrun. }
  split; [done|].
  rewrite report_template in Hrun by done. cbn zeta in Hrun.
  fold format in Hrun.
  destruct (ParseTemplate format) as [tmpl|e0].
  2: { left. by injection Hrun as _ <-. }
  right. exists tmpl. split; [done|]. cbn zeta.
  destruct (Template_Execute tmpl (AppWriter w) workers) as [s [e0|]]; cbn in *.
  - left. by injection Hrun as _ <-.
  - right. split; [done|].
    destruct (sink_Write s NL) as [s' [e0|]]; cbn in *; [|discriminate Hrun].
    by injection Hrun as _ <-.
Qed.

End Errors.

(** The client cannot be resolved: the error is the one of the resolution. *)
Lemma listWorkers_error_sources_witness :
  let clicontext := Demo.flags (Some "{{len .}}") true in
  let w := @Build_World Demo.offline Demo.open_sink Demo.open_sink [] in
  @listWorkers Demo.host Demo.offline Demo.forward clicontext w =
    (w, Err "dial: connection refused") ∧
  @ResolveClient Demo.offline clicontext = Err "dial: connection refused".
Proof.
  intros clicontext w.
  assert (@listWorkers Demo.host Demo.offline Demo.forward clicontext w =
          (w, Err "dial: connection refused")) as Hrun by reflexivity.
  split; [exact Hrun|].
  destruct (@listWorkers_error_sources Demo.host Demo.offline Demo.forward
              clicontext w w "dial: connection refused" Hrun)
    as [[Hc _]|[(c & Hc & _)|(c & ws & Hc & _)]].
  - exact Hc.
  - discriminate Hc.
  - discriminate Hc.
Defined.

(** ** Writes and the flush *)

Lemma writes_only_nil : writes_only [].
Proof. done. Qed.

Lemma writes_only_Fprintf (text : string) : writes_only (Fprintf text).
Proof. done. Qed.

Lemma writes_only_app (cs1 cs2 : list call) :
  writes_only cs1 → writes_only cs2 → writes_only (cs1 ++ cs2).
Proof.
  unfold writes_only. intros H1 H2.
  by rewrite payloads_app, fmap_app, <-H1, <-H2.
Qed.

Lemma writes_only_bind {A} (f : A → list call) (l : list A) :
  (∀ x, writes_only (f x)) → writes_only (l ≫= f).
Proof.
  intros Hf. induction l as [|x l IH]; [done|].
  rewrite bind_cons. by apply writes_only_app.
Qed.

Lemma writes_only_concat_imap {A} (f : nat → A → list call) (l : list A) :
  (∀ i x, writes_only (f i x)) → writes_only (concat (imap f l)).
Proof.
  revert f. induction l as [|x l IH]; intros f Hf; [done|].
  cbn. apply writes_only_app; [apply Hf|]. apply IH. intros i y. apply Hf.
Qed.

Lemma foldr_append_app (ps1 ps2 : list string) :
  foldr String.append "" (ps1 ++ ps2) =
  foldr String.append "" ps1 +:+ foldr String.append "" ps2.
Proof.
  induction ps1 as [|p ps1 IH]; [done|].
  cbn [app foldr]. by rewrite IH, string_app_assoc.
Qed.

Lemma text_of_app (cs1 cs2 : list call) :
  text_of (cs1 ++ cs2) = text_of cs1 +:+ text_of cs2.
Proof. unfold text_of. by rewrite payloads_app, foldr_append_app. Qed.

Section Flushing.
Context `{Host}.

Lemma printDevice_writes_only (ρ : RangeOrder) (d : CDIDevice.t) :
  writes_only (printDevice ρ d).
Proof.
  unfold printDevice. repeat apply writes_only_app; try done.
  - by destruct (CDIDevice.OnDemand d).
  - by apply writes_only_bind.
Qed.

Lemma printRule_writes_only (i : nat) (rule : PruneInfo.t) :
  writes_only (printRule i rule).
Proof.
  unfold printRule.
  repeat apply writes_only_app; try done; by case_bool_decide.
Qed.

Lemma printWorker_writes_only (ρ : RangeOrder) (wi : WorkerInfo.t) :
  writes_only (printWorker ρ wi).
Proof.
  unfold printWorker. repeat apply writes_only_app; try done.
  - by apply writes_only_bind.
  - case_bool_decide; [|done].
    repeat apply writes_only_app; try done.
    apply writes_only_bind, printDevice_writes_only.
  - apply writes_only_concat_imap, printRule_writes_only.
Qed.

Lemma printWorkersTable_payloads (winfo : list WorkerInfo.t) :
  payloads (printWorkersTable winfo) =
  ("ID" +:+ TAB +:+ "PLATFORMS" +:+ NL) ::
  ((λ wi, WorkerInfo.ID wi +:+ TAB +:+
          joinPlatforms (WorkerInfo.Platforms wi) +:+ NL) <$> winfo).
Proof.
  rewrite printWorkersTable_rows, app_comm_cons, payloads_app.
  change (payloads [Flush]) with (@nil string). rewrite app_nil_r.
  change (payloads (Write ?p :: ?l)) with (p :: payloads l). f_equal.
  induction winfo as [|wi winfo IH]; [done|]. rewrite !fmap_cons.
  change (payloads (Write ?p :: ?l)) with (p :: payloads l). by rewrite IH.
Qed.

(** X3: both renderers only write and then flush once, as their last call:
    on any tab writer their run is the writes of their lines in order,
    followed by one flush. *)
Theorem flush_once_at_end `{Runtime} (ρ : RangeOrder)
  (winfo : list WorkerInfo.t) (tw : TabWriter) :
  let writes ps := foldl (λ tw p, (tabwriter_Write tw p).1) tw ps in
  printWorkersVerbose ρ winfo =
    (Write <$> payloads (printWorkersVerbose ρ winfo)) ++ [Flush]
  ∧ printWorkersTable winfo =
    (Write <$> payloads (printWorkersTable winfo)) ++ [Flush]
  ∧ run_calls tw (printWorkersVerbose ρ winfo) =
    (tabwriter_Flush (writes (payloads (printWorkersVerbose ρ winfo)))).1
  ∧ run_calls tw (printWorkersTable winfo) =
    (tabwriter_Flush (writes (payloads (printWorkersTable winfo)))).1.
Proof.
  intros writes.
  assert (∀ ps, run_calls tw ((Write <$> ps) ++ [Flush]) =
                (tabwriter_Flush (writes ps)).1) as Hrun.
  { intros ps. unfold run_calls, writes. rewrite foldl_app. cbn.
    f_equal. f_equal. generalize tw.
    induction ps as [|p ps IH]; intros tw'; [done|]. cbn. apply IH. }
  assert (printWorkersVerbose ρ winfo =
    (Write <$> payloads (printWorkersVerbose ρ winfo)) ++ [Flush]) as Hv.
  { unfold printWorkersVerbose. rewrite payloads_app.
    change (payloads [Flush]) with (@nil string). rewrite app_nil_r.
    f_equal. apply writes_only_bind, printWorker_writes_only. }
  assert (printWorkersTable winfo =
    (Write <$> payloads (printWorkersTable winfo)) ++ [Flush]) as Ht.
  { unfold printWorkersTable. rewrite !app_assoc, payloads_app.
    change (payloads [Flush]) with (@nil string). rewrite app_nil_r.
    f_equal. apply writes_only_app; [done|]. by apply writes_only_bind. }
  split; [exact Hv|]. split; [exact Ht|].
  split; [rewrite Hv at 1 | rewrite Ht at 1]; apply Hrun.
Qed.

(** X4: the dump of two lists of workers one after the other is the dump of
    the first followed by the dump of the second, line by line and byte by
    byte; for the table the header is written once, so the rows of the
    second list follow the table of the first. *)
Theorem dump_of_concatenation (ρ : RangeOrder)
  (winfo1 winfo2 : list WorkerInfo.t) :
  payloads (printWorkersVerbose ρ (winfo1 ++ winfo2)) =
    payloads (printWorkersVerbose ρ winfo1) ++
    payloads (printWorkersVerbose ρ winfo2)
  ∧ text_of (printWorkersVerbose ρ (winfo1 ++ winfo2)) =
    text_of (printWorkersVerbose ρ winfo1) +:+
    text_of (printWorkersVerbose ρ winfo2)
  ∧ payloads (printWorkersTable (winfo1 ++ winfo2)) =
    payloads (printWorkersTable winfo1) ++
    drop 1 (payloads (printWorkersTable winfo2)).
Proof.
  assert (payloads (printWorkersVerbose ρ (winfo1 ++ winfo2)) =
    payloads (printWorkersVerbose ρ winfo1) ++
    payloads (printWorkersVerbose ρ winfo2)) as Hp.
  { unfold printWorkersVerbose. rewrite bind_app, !payloads_app.
    change (payloads [Flush]) with (@nil string). by rewrite !app_nil_r. }
  split; [exact Hp|]. split.
  - unfold text_of. by rewrite Hp, foldr_append_app.
  - rewrite !printWorkersTable_payloads, fmap_app. done.
Qed.

End Flushing.

(** ** Headers and indented lines *)

Lemma unindented_app (cs1 cs2 : list call) :
  unindented (cs1 ++ cs2) = unindented cs1 ++ unindented cs2.
Proof. unfold unindented. by rewrite payloads_app, List.filter_app. Qed.

Lemma unindented_none (cs : list call) :
  Forall (λ p, starts_with TAB p = true) (payloads cs) → unindented cs = [].
Proof.
  unfold unindented. induction 1 as [|p ps Hp _ IH]; [done|].
  cbn [List.filter]. by rewrite Hp.
Qed.

Lemma payloads_bind_Forall {A} (P : string → Prop) (f : A → list call)
  (l : list A) :
  (∀ x, Forall P (payloads (f x))) → Forall P (payloads (l ≫= f)).
Proof.
  intros Hf. induction l as [|x l IH]; [constructor|].
  rewrite bind_cons, payloads_app. by apply Forall_app.
Qed.

Lemma unindented_concat_imap {A} (f : nat → A → list call)
  (g : nat → string) (l : list A) (n : nat) :
  (∀ i x, unindented (f i x) = [g i]) →
  unindented (concat (imap (λ i, f (n + i)) l)) =
  g <$> seq n (List.length l).
Proof.
  intros Hf. revert n. induction l as [|x l IH]; intros n; [done|].
  cbn [imap concat List.length seq]. rewrite unindented_app, Hf, fmap_cons.
  rewrite Nat.add_0_r. cbn [app]. f_equal.
  rewrite <-(IH (S n)). do 2 f_equal. apply imap_ext. intros i y _. cbn.
  f_equal. lia.
Qed.

Lemma filter_through {A} (P Q : A → bool) (l : list A) :
  (∀ x, P x = true → Q x = true) →
  List.filter P l = List.filter P (List.filter Q l).
Proof.
  intros HPQ. induction l as [|x l IH]; [done|]. cbn.
  destruct (P x) eqn:HP.
  - rewrite (HPQ x HP). cbn. by rewrite HP, IH.
  - destruct (Q x); cbn; by rewrite ?HP, IH.
Qed.

Section Skeleton.
Context `{Host}.

Lemma printDevice_indented (ρ : RangeOrder) (d : CDIDevice.t) :
  Forall (λ p, starts_with TAB p = true) (payloads (printDevice ρ d)).
Proof.
  unfold printDevice. rewrite !payloads_app, printAnnotations_payloads.
  repeat apply Forall_app_2.
  - by repeat constructor.
  - destruct (CDIDevice.OnDemand d); by repeat constructor.
  - apply Forall_fmap, Forall_forall. by intros k _.
Qed.

Lemma printRule_unindented (i : nat) (rule : PruneInfo.t) :
  unindented (printRule i rule) =
  ["GC Policy rule#" +:+ fmt_int i +:+ ":" +:+ NL].
Proof.
  unfold printRule. rewrite !unindented_app.
  repeat case_bool_decide; reflexivity.
Qed.

(** The lines of a worker that are not indented. *)
Lemma printWorker_unindented (ρ : RangeOrder) (wi : WorkerInfo.t) :
  unindented (printWorker ρ wi) =
  ["ID:" +:+ TAB +:+ WorkerInfo.ID wi +:+ NL;
   "Platforms:" +:+ TAB +:+ joinPlatforms (WorkerInfo.Platforms wi) +:+ NL;
   "BuildKit:" +:+ TAB +:+
     BuildkitVersion.Package (WorkerInfo.BuildkitVersion wi) +:+ " " +:+
     BuildkitVersion.Version (WorkerInfo.BuildkitVersion wi) +:+ " " +:+
     BuildkitVersion.Revision (WorkerInfo.BuildkitVersion wi) +:+ NL;
   "Labels:" +:+ NL] ++
  (if bool_decide (WorkerInfo.CDIDevices wi = [])
   then [] else ["Devices:" +:+ NL; NL]) ++
  ((λ i, "GC Policy rule#" +:+ fmt_int i +:+ ":" +:+ NL) <$>
     seq 0 (List.length (WorkerInfo.GCPolicy wi))) ++
  [NL].
Proof.
  unfold printWorker. rewrite !unindented_app.
  rewrite (unindented_none (_ ≫= printLabel _)).
  2: { apply payloads_bind_Forall. intros k. by repeat constructor. }
  rewrite (unindented_concat_imap (λ i, printRule i)
             (λ i, "GC Policy rule#" +:+ fmt_int i +:+ ":" +:+ NL) _ 0)
    by apply printRule_unindented.
  assert ((if bool_decide (0 < List.length (WorkerInfo.CDIDevices wi))
     then unindented (Fprintf ("Devices:" +:+ NL) ++
            (WorkerInfo.CDIDevices wi ≫= printDevice ρ) ++ Fprintf NL)
     else []) =
    (if bool_decide (WorkerInfo.CDIDevices wi = [])
     then [] else ["Devices:" +:+ NL; NL])) as Hd.
  { destruct (WorkerInfo.CDIDevices wi) as [|d ds] eqn:Hds; [done|].
    rewrite bool_decide_true by (cbn; lia).
    rewrite bool_decide_false by done.
    rewrite !unindented_app, (unindented_none (_ ≫= printDevice ρ)).
    - reflexivity.
    - apply payloads_bind_Forall, printDevice_indented. }
  revert Hd. case_bool_decide; intros <-; reflexivity.
Qed.

End Skeleton.

Section Order.
Context `{Host}.

(** X5: of the texts the verbose renderer writes, one per print call, those
    that do not start with a tab are, worker by worker in the order of the
    input, the ones of [ID:], [Platforms:], [BuildKit:] and [Labels:], then
    [Devices:] and a newline exactly when the worker has a device, then one
    header [GC Policy rule#i:] per rule with [i] counting from 0, then a
    newline; every other text it writes starts with a tab. *)
Theorem verbose_skeleton (ρ : RangeOrder) (winfo : list WorkerInfo.t) :
  let skeleton wi :=
    ["ID:" +:+ TAB +:+ WorkerInfo.ID wi +:+ NL;
     "Platforms:" +:+ TAB +:+ joinPlatforms (WorkerInfo.Platforms wi) +:+ NL;
     "BuildKit:" +:+ TAB +:+
       BuildkitVersion.Package (WorkerInfo.BuildkitVersion wi) +:+ " " +:+
       BuildkitVersion.Version (WorkerInfo.BuildkitVersion wi) +:+ " " +:+
       BuildkitVersion.Revision (WorkerInfo.BuildkitVersion wi) +:+ NL;
     "Labels:" +:+ NL] ++
    (if bool_decide (WorkerInfo.CDIDevices wi = [])
     then [] else ["Devices:" +:+ NL; NL]) ++
    ((λ i, "GC Policy rule#" +:+ fmt_int i +:+ ":" +:+ NL) <$>
       seq 0 (List.length (WorkerInfo.GCPolicy wi))) ++
    [NL] in
  unindented (printWorkersVerbose ρ winfo) = winfo ≫= skeleton.
Proof.
  intros skeleton. unfold printWorkersVerbose.
  rewrite unindented_app. change (unindented [Flush]) with (@nil string).
  rewrite app_nil_r.
  induction winfo as [|wi winfo IH]; [done|].
  rewrite !bind_cons, unindented_app, IH. f_equal.
  apply printWorker_unindented.
Qed.

(** X6: the verbose dump has one [ID:] line per worker, with the id of the
    worker, in the order of the input: workers are neither dropped,
    repeated nor reordered. *)
Theorem verbose_workers_in_order (ρ : RangeOrder)
  (winfo : list WorkerInfo.t) :
  lines_with ("ID:" +:+ TAB) (printWorkersVerbose ρ winfo) =
  (λ wi, "ID:" +:+ TAB +:+ WorkerInfo.ID wi +:+ NL) <$> winfo.
Proof.
  unfold lines_with.
  rewrite (filter_through _ (λ p, negb (starts_with TAB p))).
  2: { intros [|a p] Hp; [done|].
       assert (a = "I"%char) as ->; [|reflexivity].
       change (Ascii.eqb "I" a && starts_with ("D:" +:+ TAB) p = true) in Hp.
       apply andb_true_iff in Hp as [Ha _]. symmetry.
       by apply Ascii.eqb_eq. }
  fold (unindented (printWorkersVerbose ρ winfo)).
  unfold printWorkersVerbose. rewrite unindented_app.
  change (unindented [Flush]) with (@nil string). rewrite app_nil_r.
  induction winfo as [|wi winfo IH]; [done|].
  rewrite bind_cons, unindented_app, List.filter_app, IH, fmap_cons.
  rewrite printWorker_unindented. clear IH.
  rewrite !List.filter_app.
  assert (List.filter (starts_with ("ID:" +:+ TAB))
            ((λ i, "GC Policy rule#" +:+ fmt_int i +:+ ":" +:+ NL) <$>
               seq 0 (List.length (WorkerInfo.GCPolicy wi))) = []) as ->.
  { induction (seq 0 _) as [|i l IH]; [done|]. rewrite fmap_cons. exact IH. }
  by case_bool_decide.
Qed.

(** X7: the device section of a worker with devices is the line
    [Devices:], the blocks of the devices and a blank line; it has one
    [Name:] line per device, with the name of the device, in the order of
    the input. *)
Theorem devices_in_order (ρ : RangeOrder) (wi : WorkerInfo.t) :
  let devices := WorkerInfo.CDIDevices wi in
  (devices ≠ [] →
   emitted_in (Fprintf ("Devices:" +:+ NL) ++ (devices ≫= printDevice ρ) ++
               Fprintf NL) (printWorker ρ wi))
  ∧ lines_with (TAB +:+ "Name:" +:+ TAB) (devices ≫= printDevice ρ) =
    (λ d, TAB +:+ "Name:" +:+ TAB +:+ CDIDevice.Name d +:+ NL) <$> devices.
Proof.
  intros devices. split.
  - intros Hne. unfold printWorker.
    do 5 apply emitted_in_app_r. apply emitted_in_app_l.
    fold devices. rewrite bool_decide_true.
    + apply emitted_in_refl.
    + destruct devices; [done|cbn; lia].
  - induction devices as [|d ds IH]; [done|].
    rewrite bind_cons, lines_with_app, IH, fmap_cons. clear IH.
    unfold printDevice. rewrite !lines_with_app.
    rewrite (lines_with_none _ (_ ≫= printAnnotation _)).
    2: { rewrite printAnnotations_payloads.
         apply Forall_fmap, Forall_forall. by intros k _. }
    rewrite !lines_with_Fprintf.
    destruct (CDIDevice.OnDemand d); by first_bytes.
Qed.

(** X8: the [Annotations:] lines of a device are one per annotation, each
    with its key and value, in strictly ascending byte order of the keys,
    whatever the order in which the map is visited. *)
Theorem device_annotations_sorted (ρ : RangeOrder) (d : CDIDevice.t) :
  ∃ keys,
    lines_with (TAB +:+ "Annotations:" +:+ TAB) (printDevice ρ d) =
      (λ k, TAB +:+ "Annotations:" +:+ TAB +:+ k +:+ ":" +:+ TAB +:+
            default "" (CDIDevice.Annotations d !! k) +:+ NL) <$> keys
    ∧ StronglySorted (strict String.le) keys
    ∧ (∀ k, k ∈ keys ↔ is_Some (CDIDevice.Annotations d !! k))
    ∧ List.length keys = size (CDIDevice.Annotations d)
    ∧ ∀ ρ', printDevice ρ' d = printDevice ρ d.
Proof.
  exists (sortedKeys ρ (CDIDevice.Annotations d)).
  split; [|split; [|split; [|split]]].
  - unfold printDevice. rewrite !lines_with_app, !lines_with_Fprintf.
    assert (lines_with (TAB +:+ "Annotations:" +:+ TAB)
              (sortedKeys ρ (CDIDevice.Annotations d) ≫=
               printAnnotation (CDIDevice.Annotations d)) =
            (λ k, TAB +:+ "Annotations:" +:+ TAB +:+ k +:+ ":" +:+ TAB +:+
               default "" (CDIDevice.Annotations d !! k) +:+ NL) <$>
              sortedKeys ρ (CDIDevice.Annotations d)) as ->.
    { unfold lines_with. rewrite printAnnotations_payloads.
      induction (sortedKeys ρ _) as [|k ks IH]; [done|].
      rewrite fmap_cons. cbn [List.filter]. first_bytes. by rewrite IH. }
    destruct (CDIDevice.OnDemand d); by first_bytes.
  - apply sortedKeys_strict.
  - apply elem_of_sortedKeys.
  - rewrite sortedKeys_perm, length_fmap. apply length_map_to_list.
  - intros ρ'. apply printDevice_order.
Qed.

End Order.

(** ** Collection policy, platforms and keys *)

Section Details.
Context `{Host}.

(** X9: the print call of an optional line of a rule is made exactly when
    the guard of its [if] holds: [Filters:] for a non-empty filter list, the
    four others for a field greater than zero, so a negative duration or
    size is left out like a zero; the rule makes two print calls more than
    guards that hold. *)
Theorem gc_rule_lines_exact (i : nat) (rule : PruneInfo.t) :
  let shown (b : bool) := if b then 1 else 0 in
  (lines_with (TAB +:+ "Filters:" +:+ TAB) (printRule i rule) ≠ [] ↔
   PruneInfo.Filter rule ≠ [])
  ∧ (lines_with (TAB +:+ "Keep duration:" +:+ TAB) (printRule i rule) ≠ [] ↔
     (0 < PruneInfo.KeepDuration rule)%Z)
  ∧ (lines_with (TAB +:+ "Reserved space:" +:+ TAB) (printRule i rule) ≠ [] ↔
     (0 < PruneInfo.ReservedSpace rule)%Z)
  ∧ (lines_with (TAB +:+ "Minimum free space:" +:+ TAB) (printRule i rule)
       ≠ [] ↔ (0 < PruneInfo.MinFreeSpace rule)%Z)
  ∧ (lines_with (TAB +:+ "Maximum used space:" +:+ TAB) (printRule i rule)
       ≠ [] ↔ (0 < PruneInfo.MaxUsedSpace rule)%Z)
  ∧ List.length (payloads (printRule i rule)) =
    2 + shown (bool_decide (PruneInfo.Filter rule ≠ []))
      + shown (bool_decide (0 < PruneInfo.KeepDuration rule)%Z)
      + shown (bool_decide (0 < PruneInfo.ReservedSpace rule)%Z)
      + shown (bool_decide (0 < PruneInfo.MinFreeSpace rule)%Z)
      + shown (bool_decide (0 < PruneInfo.MaxUsedSpace rule)%Z).
Proof.
  intros shown.
  rewrite printRule_Filters, printRule_KeepDuration, printRule_ReservedSpace,
    printRule_MinFreeSpace, printRule_MaxUsedSpace.
  split; [|split; [|split; [|split; [|split]]]].
  - destruct (PruneInfo.Filter rule) as [|f fs]; [done|].
    rewrite bool_decide_true by (cbn; lia). done.
  - case_bool_decide; [done|]. split; [done|lia].
  - case_bool_decide; [done|]. split; [done|lia].
  - case_bool_decide; [done|]. split; [done|lia].
  - case_bool_decide; [done|]. split; [done|lia].
  - unfold printRule. rewrite !payloads_app.
    assert (bool_decide (0 < List.length (PruneInfo.Filter rule)) =
            bool_decide (PruneInfo.Filter rule ≠ [])) as ->.
    { destruct (PruneInfo.Filter rule); [done|].
      rewrite bool_decide_true by (cbn; lia). by rewrite bool_decide_true. }
    rewrite !length_app.
    repeat case_bool_decide; reflexivity.
Qed.

Lemma strings_Join_app (l1 l2 : list string) (sep : string) :
  l1 ≠ [] → l2 ≠ [] →
  strings_Join (l1 ++ l2) sep =
  strings_Join l1 sep +:+ sep +:+ strings_Join l2 sep.
Proof.
  intros H1 H2. induction l1 as [|e l1 IH]; [done|].
  destruct l1 as [|e' l1].
  - destruct l2 as [|e2 l2]; [done|]. reflexivity.
  - change (strings_Join ((e :: e' :: l1) ++ l2) sep)
      with (e +:+ sep +:+ strings_Join ((e' :: l1) ++ l2) sep).
    rewrite IH by done.
    change (strings_Join (e :: e' :: l1) sep)
      with (e +:+ sep +:+ strings_Join (e' :: l1) sep).
    by rewrite !string_app_assoc.
Qed.

(** X10: the platforms of two non-empty lists joined at once are the two
    joins with a comma between them; one platform alone is printed without
    a comma. *)
Theorem joinPlatforms_app (p1 p2 : list Platform.t) :
  p1 ≠ [] → p2 ≠ [] →
  joinPlatforms (p1 ++ p2) = joinPlatforms p1 +:+ "," +:+ joinPlatforms p2
  ∧ ∀ p, joinPlatforms [p] = platforms_Format (platforms_Normalize p).
Proof.
  intros H1 H2. split; [|done].
  rewrite !joinPlatforms_Join, fmap_app.
  apply strings_Join_app; by destruct p1, p2.
Qed.

(** X11: when no formatted platform holds a comma, the joined text has one
    comma less than there are platforms (and none for no platform): the
    commas are exactly the separators. *)
Theorem joinPlatforms_commas (p : list Platform.t) :
  Forall (λ pp, count_byte ","
                  (platforms_Format (platforms_Normalize pp)) = 0) p →
  count_byte "," (joinPlatforms p) = List.length p - 1.
Proof.
  intros Hp. rewrite joinPlatforms_Join.
  induction Hp as [|pp p Hpp Hp IH]; [done|].
  destruct p as [|pp' p].
  { cbn. rewrite Hpp. done. }
  rewrite fmap_cons.
  change (strings_Join (?e :: (?f <$> pp' :: p)) ",")
    with (e +:+ "," +:+ strings_Join (f <$> pp' :: p) ",").
  rewrite !count_byte_app, IH. cbn [compose]. rewrite Hpp. cbn. lia.
Qed.

End Details.

(** X12: the sorted keys of a map depend on its set of keys alone, not on
    the values nor on the order of the visit, and there is one per entry of
    the map. *)
Theorem sortedKeys_dom (ρ ρ' : RangeOrder) (m m' : gmap string string) :
  dom m = dom m' →
  sortedKeys ρ m = sortedKeys ρ' m'
  ∧ List.length (sortedKeys ρ m) = size m.
Proof.
  intros Hdom. split.
  - apply (StronglySorted_unique String.le); try apply sortedKeys_ascending.
    apply NoDup_Permutation; try apply sortedKeys_NoDup.
    intros k. rewrite !elem_of_sortedKeys, <-!elem_of_dom. by rewrite Hdom.
  - rewrite sortedKeys_perm, length_fmap. apply length_map_to_list.
Qed.

(** ** What the renderers read and how lines end *)

Lemma ends_NL_app (a s : string) :
  (∃ body, s = body +:+ NL) → ∃ body, a +:+ s = body +:+ NL.
Proof. intros [body ->]. exists (a +:+ body). by rewrite string_app_assoc. Qed.

Lemma ends_NL : ∃ body, NL = body +:+ NL.
Proof. by exists "". Qed.

Lemma payloads_concat_imap_Forall {A} (P : string → Prop)
  (f : nat → A → list call) (l : list A) :
  (∀ i x, Forall P (payloads (f i x))) →
  Forall P (payloads (concat (imap f l))).
Proof.
  revert f. induction l as [|x l IH]; intros f Hf; [constructor|].
  cbn. rewrite payloads_app. apply Forall_app_2; [apply Hf|].
  apply IH. intros i y. apply Hf.
Qed.

Section Reading.
Context `{Host}.

(** X13: the table reads the id and the platforms of a worker and nothing
    else: two lists of workers that agree on these, worker by worker, give
    the same table, whatever their labels, devices, rules and versions. *)
Theorem table_reads_id_and_platforms (winfo winfo' : list WorkerInfo.t) :
  Forall2 (λ wi wi',
    WorkerInfo.ID wi = WorkerInfo.ID wi' ∧
    WorkerInfo.Platforms wi = WorkerInfo.Platforms wi') winfo winfo' →
  printWorkersTable winfo = printWorkersTable winfo'.
Proof.
  intros Hsame. rewrite !printWorkersTable_rows. do 2 f_equal.
  induction Hsame as [|wi wi' winfo winfo' [Hid Hps] _ IH]; [done|].
  by rewrite !fmap_cons, IH, Hid, Hps.
Qed.

(** X14: every text the verbose renderer writes ends with a newline, so
    every write ends the line it is on. *)
Theorem verbose_lines_terminated (ρ : RangeOrder)
  (winfo : list WorkerInfo.t) :
  Forall (λ p, ∃ body, p = body +:+ NL)
    (payloads (printWorkersVerbose ρ winfo)).
Proof.
  unfold printWorkersVerbose. rewrite payloads_app.
  change (payloads [Flush]) with (@nil string). rewrite app_nil_r.
  apply payloads_bind_Forall. intros wi. unfold printWorker.
  rewrite !payloads_app. repeat apply Forall_app_2.
  - repeat constructor; repeat apply ends_NL_app; apply ends_NL.
  - repeat constructor; repeat apply ends_NL_app; apply ends_NL.
  - repeat constructor; repeat apply ends_NL_app; apply ends_NL.
  - repeat constructor; repeat apply ends_NL_app; apply ends_NL.
  - apply payloads_bind_Forall. intros k. repeat constructor; repeat apply ends_NL_app; apply ends_NL.
  - case_bool_decide; [|constructor].
    rewrite !payloads_app. repeat apply Forall_app_2.
    + repeat constructor; repeat apply ends_NL_app; apply ends_NL.
    + apply payloads_bind_Forall. intros d. unfold printDevice.
      rewrite !payloads_app. repeat apply Forall_app_2.
      * repeat constructor; repeat apply ends_NL_app; apply ends_NL.
      * destruct (CDIDevice.OnDemand d); repeat constructor; repeat apply ends_NL_app; apply ends_NL.
      * apply payloads_bind_Forall. intros k. repeat constructor; repeat apply ends_NL_app; apply ends_NL.
    + repeat constructor; repeat apply ends_NL_app; apply ends_NL.
  - apply payloads_concat_imap_Forall. intros i rule. unfold printRule.
    rewrite !payloads_app.
    repeat apply Forall_app_2; repeat case_bool_decide;
      repeat constructor; repeat apply ends_NL_app; apply ends_NL.
  - repeat constructor; repeat apply ends_NL_app; apply ends_NL.
Qed.

End Reading.

(** ** The further properties at work *)

(** Two platforms and then one more. *)
Lemma joinPlatforms_app_witness :
  let amd64 := Platform.mk "amd64" "linux" "" [] "" in
  let armv7 := Platform.mk "arm" "linux" "" [] "v7" in
  [amd64; armv7] ≠ [] ∧ [amd64] ≠ [] ∧
  @joinPlatforms Demo.host ([amd64; armv7] ++ [amd64]) =
  "linux/amd64,linux/arm/v7" +:+ "," +:+ "linux/amd64".
Proof.
  intros amd64 armv7.
  assert ([amd64; armv7] ≠ []) as H1 by done.
  assert ([amd64] ≠ []) as H2 by done.
  split; [exact H1|]. split; [exact H2|].
  destruct (@joinPlatforms_app Demo.host [amd64; armv7] [amd64] H1 H2)
    as [Happ _].
  rewrite Happ. reflexivity.
Defined.

(** The two platforms of [w2] are joined by one comma. *)
Lemma joinPlatforms_commas_witness :
  Forall (λ pp, count_byte ","
            (@platforms_Format Demo.host
               (@platforms_Normalize Demo.host pp)) = 0)
    (WorkerInfo.Platforms Demo.w2) ∧
  count_byte "," (@joinPlatforms Demo.host (WorkerInfo.Platforms Demo.w2)) = 1.
Proof.
  assert (Forall (λ pp, count_byte ","
            (@platforms_Format Demo.host
               (@platforms_Normalize Demo.host pp)) = 0)
    (WorkerInfo.Platforms Demo.w2)) as Hp by (repeat constructor).
  split; [exact Hp|].
  exact (@joinPlatforms_commas Demo.host (WorkerInfo.Platforms Demo.w2) Hp).
Defined.

(** Two maps with the keys [m] and [z] and other values. *)
Lemma sortedKeys_dom_witness :
  let m : gmap string string := {[ "z" := "26"; "m" := "13" ]} in
  let m' : gmap string string := {[ "m" := ""; "z" := "" ]} in
  dom m = dom m' ∧
  sortedKeys Demo.forward m = sortedKeys Demo.backward m' ∧
  List.length (sortedKeys Demo.forward m) = size m.
Proof.
  intros m m'.
  assert (dom m = dom m') as Hdom.
  { unfold m, m'. rewrite !dom_insert_L, !dom_singleton_L. set_solver. }
  split; [exact Hdom|].
  exact (sortedKeys_dom Demo.forward Demo.backward m m' Hdom).
Defined.

(** [w2] and a worker with its id and platforms only. *)
Lemma table_reads_id_and_platforms_witness :
  let bare := {|
    WorkerInfo.ID := "w2";
    WorkerInfo.Labels := ∅;
    WorkerInfo.Platforms := WorkerInfo.Platforms Demo.w2;
    WorkerInfo.GCPolicy := [];
    WorkerInfo.BuildkitVersion := BuildkitVersion.mk "" "" "";
    WorkerInfo.CDIDevices := []
  |} in
  Forall2 (λ wi wi',
    WorkerInfo.ID wi = WorkerInfo.ID wi' ∧
    WorkerInfo.Platforms wi = WorkerInfo.Platforms wi') [Demo.w2] [bare] ∧
  @printWorkersTable Demo.host [Demo.w2] = @printWorkersTable Demo.host [bare].
Proof.
  intros bare.
  assert (Forall2 (λ wi wi',
    WorkerInfo.ID wi = WorkerInfo.ID wi' ∧
    WorkerInfo.Platforms wi = WorkerInfo.Platforms wi') [Demo.w2] [bare])
    as Hsame by (repeat constructor).
  split; [exact Hsame|].
  exact (@table_reads_id_and_platforms Demo.host [Demo.w2] [bare] Hsame).
Defined.

(** ** The lines of the table *)

Lemma text_lines_line (body rest : string) :
  count_byte "010" body = 0 →
  text_lines (body +:+ NL +:+ rest) = body :: text_lines rest.
Proof.
  induction body as [|a body IH]; intros Hbody; [done|].
  unfold String.append; fold String.append.
  cbn [count_byte] in Hbody. cbn [text_lines].
  destruct (Ascii.eqb a "010"); [done|].
  by rewrite IH by lia.
Qed.

Section TableLines.
Context `{Host}.

(** The text of the table is the header row and the rows of the workers. *)
Lemma printWorkersTable_text (winfo : list WorkerInfo.t) :
  text_of (printWorkersTable winfo) =
  ("ID" +:+ TAB +:+ "PLATFORMS") +:+ NL +:+
  foldr String.append ""
    ((λ wi, (WorkerInfo.ID wi +:+ TAB +:+
             joinPlatforms (WorkerInfo.Platforms wi)) +:+ NL) <$> winfo).
Proof.
  unfold text_of. rewrite printWorkersTable_payloads. cbn [foldr].
  rewrite !string_app_assoc. do 4 f_equal.
  induction winfo as [|wi winfo IH]; [done|].
  rewrite !fmap_cons. cbn [foldr]. by rewrite IH, !string_app_assoc.
Qed.

(** C2, as the code has it: when no id and no formatted platform holds a
    newline or a form feed (the two bytes that end a line in the tab
    writer), the text the table renderer writes has exactly
    [1 + len(workers)] lines: the header row [ID], tab, [PLATFORMS] first,
    then one row per worker in the order of the input, made of the id, a
    tab and the comma-join of the formatted normalized platforms in their
    order; no platform gives the empty string. *)
Theorem table_lines (winfo : list WorkerInfo.t) :
  Forall (λ wi,
    (count_byte "010" (WorkerInfo.ID wi) = 0 ∧
     count_byte "012" (WorkerInfo.ID wi) = 0) ∧
    Forall (λ p,
      count_byte "010" (platforms_Format (platforms_Normalize p)) = 0 ∧
      count_byte "012" (platforms_Format (platforms_Normalize p)) = 0)
      (WorkerInfo.Platforms wi)) winfo →
  let platforms wi :=
    strings_Join
      ((platforms_Format ∘ platforms_Normalize) <$> WorkerInfo.Platforms wi)
      "," in
  text_lines (text_of (printWorkersTable winfo)) =
    ("ID" +:+ TAB +:+ "PLATFORMS") ::
    ((λ wi, WorkerInfo.ID wi +:+ TAB +:+ platforms wi) <$> winfo)
  ∧ List.length (text_lines (text_of (printWorkersTable winfo))) =
    1 + List.length winfo
  ∧ count_byte "012" (text_of (printWorkersTable winfo)) = 0
  ∧ joinPlatforms [] = "".
Proof.
  intros Hws platforms.
  assert (∀ c wi,
    count_byte c (WorkerInfo.ID wi) = 0 →
    Forall (λ p, count_byte c (platforms_Format (platforms_Normalize p)) = 0)
      (WorkerInfo.Platforms wi) →
    count_byte c "," = 0 → count_byte c TAB = 0 →
    count_byte c (WorkerInfo.ID wi +:+ TAB +:+
                  joinPlatforms (WorkerInfo.Platforms wi)) = 0) as Hrow.
  { intros c wi Hid Hps Hsep Htab.
    rewrite !count_byte_app, Hid, Htab, joinPlatforms_Join.
    rewrite count_byte_Join; [done|done|]. by apply Forall_fmap. }
  assert (text_lines (text_of (printWorkersTable winfo)) =
    ("ID" +:+ TAB +:+ "PLATFORMS") ::
    ((λ wi, WorkerInfo.ID wi +:+ TAB +:+ platforms wi) <$> winfo)) as Hlines.
  { rewrite printWorkersTable_text, text_lines_line by done. f_equal.
    induction Hws as [|wi winfo [[Hid _] Hps] _ IH]; [done|].
    rewrite !fmap_cons. cbn [foldr]. rewrite string_app_assoc.
    rewrite text_lines_line, IH.
    - unfold platforms. by rewrite joinPlatforms_Join.
    - apply Hrow; [done| |done|done].
      eapply Forall_impl; [exact Hps|]. by intros p [? _]. }
  split; [exact Hlines|]. split; [|split; [|done]].
  - rewrite Hlines. cbn. by rewrite length_fmap.
  - assert (count_byte "012"
              (foldr String.append ""
                 ((λ wi, (WorkerInfo.ID wi +:+ TAB +:+
                          joinPlatforms (WorkerInfo.Platforms wi)) +:+ NL)
                    <$> winfo)) = 0) as Hrows.
    { clear Hlines.
      induction Hws as [|wi winfo [[_ Hid] Hps] _ IH]; [done|].
      rewrite fmap_cons. cbn [foldr].
      rewrite count_byte_app, IH, count_byte_app.
      assert (count_byte "012"
                (WorkerInfo.ID wi +:+ TAB +:+
                 joinPlatforms (WorkerInfo.Platforms wi)) = 0) as ->; [|done].
      apply Hrow; [done| |done|done].
      eapply Forall_impl; [exact Hps|]. by intros p [_ ?]. }
    rewrite printWorkersTable_text, !count_byte_app, Hrows. reflexivity.
Qed.

End TableLines.

(** The table of [w1] and [w2] has three lines. *)
Lemma table_lines_witness :
  Forall (λ wi,
    (count_byte "010" (WorkerInfo.ID wi) = 0 ∧
     count_byte "012" (WorkerInfo.ID wi) = 0) ∧
    Forall (λ p,
      count_byte "010" (@platforms_Format Demo.host
                          (@platforms_Normalize Demo.host p)) = 0 ∧
      count_byte "012" (@platforms_Format Demo.host
                          (@platforms_Normalize Demo.host p)) = 0)
      (WorkerInfo.Platforms wi)) [Demo.w1; Demo.w2] ∧
  text_lines (text_of (@printWorkersTable Demo.host [Demo.w1; Demo.w2])) =
  ["ID" +:+ TAB +:+ "PLATFORMS";
   "w1" +:+ TAB +:+ "linux/amd64";
   "w2" +:+ TAB +:+ "linux/amd64,linux/arm/v7"].
Proof.
  assert (Forall (λ wi,
    (count_byte "010" (WorkerInfo.ID wi) = 0 ∧
     count_byte "012" (WorkerInfo.ID wi) = 0) ∧
    Forall (λ p,
      count_byte "010" (@platforms_Format Demo.host
                          (@platforms_Normalize Demo.host p)) = 0 ∧
      count_byte "012" (@platforms_Format Demo.host
                          (@platforms_Normalize Demo.host p)) = 0)
      (WorkerInfo.Platforms wi)) [Demo.w1; Demo.w2]) as Hws
    by (repeat constructor).
  split; [exact Hws|].
  destruct (@table_lines Demo.host [Demo.w1; Demo.w2] Hws) as [Hlines _].
  rewrite Hlines. reflexivity.
Defined.

(** A worker whose id holds a newline: the table of this one worker has
    three lines, not two, and its second line is not a row of the worker. *)
Lemma table_line_break_in_id :
  let w := {|
    WorkerInfo.ID := "a" +:+ NL +:+ "b";
    WorkerInfo.Labels := ∅;
    WorkerInfo.Platforms := [Platform.mk "amd64" "linux" "" [] ""];
    WorkerInfo.GCPolicy := [];
    WorkerInfo.BuildkitVersion := BuildkitVersion.mk "" "" "";
    WorkerInfo.CDIDevices := []
  |} in
  text_lines (text_of (@printWorkersTable Demo.host [w])) =
    ["ID" +:+ TAB +:+ "PLATFORMS"; "a"; "b" +:+ TAB +:+ "linux/amd64"]
  ∧ List.length (text_lines (text_of (@printWorkersTable Demo.host [w]))) ≠
    1 + List.length [w].
Proof. intros w. split; [by vm_compute|]. by vm_compute. Qed.
